(** * HDR merge processing block (src/proc/hdr-merge.cpp)

    A shallow embedding of [librealsense::hdr_merge]: the admission
    predicate [should_process], the stateful entry point [process_frame]
    with its two-slot sequence buffer and its cached merged frame, the
    pair validator [check_frames_mergeability], the infrared eligibility
    check [should_ir_be_used_for_merging], the per-pixel merge
    [merging_algorithm] and the staleness guard
    [discard_depth_merged_frame_if_needed].

    Frame handles of the rs2 API are nullable, so they are [option]s.
    A query on an empty handle and a metadata read of a field the frame
    does not carry make the rs2 wrappers raise; a read past the end of
    a pixel buffer has no defined result.  All three are outcomes of
    the [result] type below, and the functions that can meet them are
    written in the error monad. *)

From Stdlib Require Import ZArith Bool List Lia.
From stdpp Require Import base option list gmap.

Local Open Scope Z_scope.

(** ** Outcomes of fallible calls *)

Inductive failure : Type :=
| null_handle              (* a query on an empty frame handle *)
| metadata_not_supported   (* get_frame_metadata of an absent field *)
| out_of_range.            (* a pixel read past the end of a buffer *)

Inductive result (A : Type) : Type :=
| Ok (a : A)
| Raise (e : failure).

Arguments Ok {A} a.
Arguments Raise {A} e.

#[global] Instance result_ret : MRet result := fun _ a => Ok a.

#[global] Instance result_bind : MBind result := fun _ _ k m =>
  match m with
  | Ok a => k a
  | Raise e => Raise e
  end.

#[global] Instance result_fmap : FMap result := fun _ _ g m =>
  match m with
  | Ok a => Ok (g a)
  | Raise e => Raise e
  end.

Definition raises {A} (r : result A) : bool :=
  match r with Ok _ => false | Raise _ => true end.

(** ** Frames, framesets and their metadata

    Modelled from the spec: the frame and frameset classes of the rs2
    API, which hdr-merge.cpp calls and does not define.  The block
    consumes "a query capability on a frame bundle: is this a
    multi-stream bundle, does it have a depth/infrared sub-stream, what
    per-pixel data does it hold", and "a metadata lookup capability
    keyed by named fields (FRAME_COUNTER, SEQUENCE_SIZE, SEQUENCE_ID),
    returning an integer or signaling absence".  A query needs a frame
    to answer it: through a null handle it raises, as the metadata read
    of an absent field does. *)

Inductive rs2_frame_metadata_value : Type :=
| RS2_FRAME_METADATA_FRAME_COUNTER
| RS2_FRAME_METADATA_SUBPRESET_SEQUENCE_SIZE
| RS2_FRAME_METADATA_SUBPRESET_SEQUENCE_ID.

(** What every frame exposes through the generic frame interface: the
    three metadata fields the block reads (each may be absent) and the
    resolution recorded in its video stream profile. *)
Record frame_info : Type := {
  frame_counter : option Z;
  subpreset_sequence_size : option Z;
  subpreset_sequence_id : option Z;
  profile_width : Z;
  profile_height : Z
}.

(** A depth or infrared image.  [pixels] is the buffer behind
    [get_data()], one entry per element: 16-bit words for depth, bytes
    for infrared. *)
Record video_frame : Type := {
  video_info : frame_info;
  width : Z;
  height : Z;
  pixels : list Z
}.

(** A multi-stream bundle (rs2::frameset). *)
Record frameset : Type := {
  set_info : frame_info;
  depth_stream : option video_frame;
  infrared_stream : option video_frame
}.

(** The object behind an rs2::frame handle; the handle itself is an
    [option frame_object], [None] being the null frame. *)
Inductive frame_object : Type :=
| plain (v : video_frame)
| composite (s : frameset).

Definition metadata_of (i : frame_info) (k : rs2_frame_metadata_value) : option Z :=
  match k with
  | RS2_FRAME_METADATA_FRAME_COUNTER => frame_counter i
  | RS2_FRAME_METADATA_SUBPRESET_SEQUENCE_SIZE => subpreset_sequence_size i
  | RS2_FRAME_METADATA_SUBPRESET_SEQUENCE_ID => subpreset_sequence_id i
  end.

Definition info_of (o : frame_object) : frame_info :=
  match o with
  | plain v => video_info v
  | composite s => set_info s
  end.

(** [frame.as<rs2::frameset>()]: null unless the frame is a frameset. *)
Definition as_frameset (f : option frame_object) : option frameset :=
  match f with
  | Some (composite s) => Some s
  | _ => None
  end.

(** [set.get_depth_frame()] and [set.get_infrared_frame()]: the
    component if the set has one, a null handle otherwise. *)
Definition get_depth_frame (set : option frameset) : option video_frame :=
  set ≫= depth_stream.

Definition get_infrared_frame (set : option frameset) : option video_frame :=
  set ≫= infrared_stream.

Definition supports_frame_metadata (v : video_frame)
    (k : rs2_frame_metadata_value) : bool :=
  bool_decide (is_Some (metadata_of (video_info v) k)).

Definition read_metadata (i : frame_info) (k : rs2_frame_metadata_value) : result Z :=
  match metadata_of i k with
  | Some v => Ok v
  | None => Raise metadata_not_supported
  end.

(** [get_frame_metadata] on an rs2::frame handle. *)
Definition frame_get_frame_metadata (f : option frame_object)
    (k : rs2_frame_metadata_value) : result Z :=
  match f with
  | None => Raise null_handle
  | Some o => read_metadata (info_of o) k
  end.

(** [get_frame_metadata] on a depth or infrared handle. *)
Definition get_frame_metadata (v : option video_frame)
    (k : rs2_frame_metadata_value) : result Z :=
  match v with
  | None => Raise null_handle
  | Some x => read_metadata (video_info x) k
  end.

Definition get_width (v : option video_frame) : result Z :=
  match v with
  | None => Raise null_handle
  | Some x => Ok (width x)
  end.

Definition get_height (v : option video_frame) : result Z :=
  match v with
  | None => Raise null_handle
  | Some x => Ok (height x)
  end.

Definition get_data (v : option video_frame) : result (list Z) :=
  match v with
  | None => Raise null_handle
  | Some x => Ok (pixels x)
  end.

(** [f.get_profile().as<rs2::video_stream_profile>()], as the pair
    (width, height). *)
Definition get_profile (f : option frame_object) : result (Z * Z) :=
  match f with
  | None => Raise null_handle
  | Some o => Ok (profile_width (info_of o), profile_height (info_of o))
  end.

(** ** hdr_merge::should_process *)

Definition should_process (frame : option frame_object) : bool :=
  match frame with
  | None => false
  | Some _ =>
    match as_frameset frame with
    | None => false
    | Some set =>
      match get_depth_frame (Some set) with
      | None => false
      | Some depth_frame =>
        if negb (supports_frame_metadata depth_frame
                   RS2_FRAME_METADATA_SUBPRESET_SEQUENCE_SIZE) then false
        else if negb (supports_frame_metadata depth_frame
                        RS2_FRAME_METADATA_SUBPRESET_SEQUENCE_ID) then false
        else
          match get_frame_metadata (Some depth_frame)
                  RS2_FRAME_METADATA_SUBPRESET_SEQUENCE_SIZE with
          | Ok depth_seq_size =>
              if negb (depth_seq_size =? 2) then false else true
          | Raise _ => false   (* not reached: the field was just tested *)
          end
      end
    end
  end.

(** ** Helpers for conditions whose operands can raise *)

(** [a != b] on two queries. *)
Definition differ (a b : result Z) : result bool :=
  x ← a; y ← b; mret (negb (x =? y)).

(** [p || q] with the short-circuit of C++: [q] is evaluated only when
    [p] is false. *)
Definition or_else (p q : result bool) : result bool :=
  x ← p; if x : bool then mret true else q.

(** [static_cast<int>] of a metadata value: reduction to 32 bits, two's
    complement. *)
Definition static_cast_int (x : Z) : Z :=
  (x + 2 ^ 31) mod 2 ^ 32 - 2 ^ 31.

(** ** hdr_merge::should_ir_be_used_for_merging *)

Definition should_ir_be_used_for_merging
    (first_depth first_ir second_depth second_ir : option video_frame)
    : result bool :=
  (* checking ir frames are not null *)
  let use_ir := bool_decide (is_Some first_ir) && bool_decide (is_Some second_ir) in
  (* IR and Depth dimensions must be aligned *)
  misaligned ←
    or_else (differ (get_height first_depth) (get_height first_ir))
   (or_else (differ (get_width first_depth) (get_width first_ir))
   (or_else (differ (get_height second_ir) (get_height first_ir))
            (differ (get_width second_ir) (get_width first_ir))));
  let use_ir := if misaligned : bool then false else use_ir in
  (* checking frame counter of first depth and ir are the same *)
  if use_ir then
    depth_frame_counter ←
      static_cast_int <$> get_frame_metadata first_depth RS2_FRAME_METADATA_FRAME_COUNTER;
    ir_frame_counter ←
      static_cast_int <$> get_frame_metadata first_ir RS2_FRAME_METADATA_FRAME_COUNTER;
    let use_ir := depth_frame_counter =? ir_frame_counter in
    (* checking frame counter of second depth and ir are the same *)
    if use_ir then
      depth_frame_counter ←
        static_cast_int <$> get_frame_metadata second_depth RS2_FRAME_METADATA_FRAME_COUNTER;
      ir_frame_counter ←
        static_cast_int <$> get_frame_metadata second_ir RS2_FRAME_METADATA_FRAME_COUNTER;
      let use_ir := depth_frame_counter =? ir_frame_counter in
      (* checking sequence id of first depth and ir are the same *)
      if use_ir then
        depth_seq_id ← get_frame_metadata first_depth RS2_FRAME_METADATA_SUBPRESET_SEQUENCE_ID;
        ir_seq_id ← get_frame_metadata first_ir RS2_FRAME_METADATA_SUBPRESET_SEQUENCE_ID;
        let use_ir := depth_seq_id =? ir_seq_id in
        (* checking sequence id of second depth and ir are the same *)
        if use_ir then
          depth_seq_id ← get_frame_metadata second_depth RS2_FRAME_METADATA_SUBPRESET_SEQUENCE_ID;
          ir_seq_id ← get_frame_metadata second_ir RS2_FRAME_METADATA_SUBPRESET_SEQUENCE_ID;
          mret (depth_seq_id =? ir_seq_id)
        else mret use_ir
      else mret use_ir
    else mret use_ir
  else mret use_ir.

(** ** hdr_merge::check_frames_mergeability

    The reference parameter [use_ir] is passed in and handed back: the
    result is the pair (return value, [use_ir] on exit). *)

Definition check_frames_mergeability (first_fs second_fs : option frameset)
    (use_ir : bool) : result (bool * bool) :=
  let first_depth := get_depth_frame first_fs in
  let second_depth := get_depth_frame second_fs in
  let first_ir := get_infrared_frame first_fs in
  let second_ir := get_infrared_frame second_fs in
  first_fs_frame_counter ← get_frame_metadata first_depth RS2_FRAME_METADATA_FRAME_COUNTER;
  second_fs_frame_counter ← get_frame_metadata second_depth RS2_FRAME_METADATA_FRAME_COUNTER;
  if negb (first_fs_frame_counter + 1 =? second_fs_frame_counter) then mret (false, use_ir)
  else
    (* Depth dimensions must align *)
    misaligned ←
      or_else (differ (get_height first_depth) (get_height second_depth))
              (differ (get_width first_depth) (get_width second_depth));
    if misaligned : bool then mret (false, use_ir)
    else
      use_ir ← should_ir_be_used_for_merging first_depth first_ir second_depth second_ir;
      mret (true, use_ir).

(** ** The frame allocator *)

(** Modelled from the spec: the frame source of the host pipeline,
    which is not part of the block.  "Given a source profile, a
    reference frame (for metadata propagation), pixel depth, width,
    height, stride, and a type tag, returns a newly allocated, mutable
    depth frame or an absent result on allocation failure."  Whether an
    allocation succeeds is the source's business, so it is a field of
    the source; so is the content of fresh memory, which the block must
    not rely on. *)
Record frame_source : Type := {
  allocation_succeeds : bool;
  fresh_memory : Z
}.

Definition allocate_video_frame (source : frame_source) (profile : Z * Z)
    (original : video_frame) (new_width new_height : Z) : option video_frame :=
  if allocation_succeeds source then
    Some {| video_info :=
              {| frame_counter := frame_counter (video_info original);
                 subpreset_sequence_size := subpreset_sequence_size (video_info original);
                 subpreset_sequence_id := subpreset_sequence_id (video_info original);
                 profile_width := profile.1;
                 profile_height := profile.2 |};
            width := new_width;
            height := new_height;
            pixels := replicate (Z.to_nat (new_width * new_height)) (fresh_memory source) |}
  else None.

(** ** Pixel buffers *)

(** [buf[i]] as a read. *)
Definition read (buf : list Z) (i : nat) : result Z :=
  match buf !! i with
  | Some v => Ok v
  | None => Raise out_of_range
  end.

(** [memset(buf, 0, n * sizeof(uint16_t))] on a buffer of 16-bit words. *)
Definition memset_zero (buf : list Z) (n : nat) : list Z :=
  replicate (n `min` length buf)%nat 0 ++ drop n buf.

(** [for (int i = 0; i < count; i++) new_data[i] = body(i);], started
    at index [i] with [count] iterations left. *)
Fixpoint for_each_pixel (body : nat → result Z) (count i : nat)
    (new_data : list Z) : result (list Z) :=
  match count with
  | O => mret new_data
  | S count' =>
      v ← body i;
      for_each_pixel body count' (S i) (<[i := v]> new_data)
  end.

(** ** The block's state *)

(** Modelled from the spec: the two data members of the class, which
    the header declares.  [_framesets] is the sequence buffer, a
    "mapping from sequence position (0 or 1) to the held frame bundle";
    [_depth_merged_frame] is the cached merge result, "at most one
    frame bundle", null while no merge is cached. *)
Record hdr_merge : Type := {
  _framesets : gmap Z (option frameset);
  _depth_merged_frame : option frame_object
}.

(** The state right after construction. *)
Definition hdr_merge_new : hdr_merge :=
  {| _framesets := ∅; _depth_merged_frame := None |}.

(** Member functions that change the state: a state transformer that
    can raise, the state at the point of the raise being kept. *)
Definition action (A : Type) : Type := hdr_merge → result A * hdr_merge.

#[global] Instance action_ret : MRet action := fun _ a this => (Ok a, this).

#[global] Instance action_bind : MBind action := fun _ _ k m this =>
  match m this with
  | (Ok a, this') => k a this'
  | (Raise e, this') => (Raise e, this')
  end.

Definition lift {A} (r : result A) : action A := fun this => (r, this).

Definition get_framesets : action (gmap Z (option frameset)) :=
  fun this => (Ok (_framesets this), this).

Definition set_framesets (m : gmap Z (option frameset)) : action unit :=
  fun this =>
    (Ok tt, {| _framesets := m; _depth_merged_frame := _depth_merged_frame this |}).

Definition get_depth_merged_frame : action (option frame_object) :=
  fun this => (Ok (_depth_merged_frame this), this).

Definition set_depth_merged_frame (f : option frame_object) : action unit :=
  fun this =>
    (Ok tt, {| _framesets := _framesets this; _depth_merged_frame := f |}).

Definition skip : action unit := mret tt.

(** ** hdr_merge::discard_depth_merged_frame_if_needed *)

Definition discard_depth_merged_frame_if_needed (f : option frame_object)
    : action unit :=
  merged ← get_depth_merged_frame;
  if bool_decide (is_Some merged) then
    (* criteria for discarding saved merged_depth_frame:
       1 - frame counter for merged depth is greater than the input frame
       2 - resolution change *)
    depth_merged_frame_counter ←
      lift (frame_get_frame_metadata merged RS2_FRAME_METADATA_FRAME_COUNTER);
    input_frame_counter ←
      lift (frame_get_frame_metadata f RS2_FRAME_METADATA_FRAME_COUNTER);
    merged_d_profile ← lift (get_profile merged);
    new_d_profile ← lift (get_profile f);
    if (depth_merged_frame_counter >? input_frame_counter)
       || negb (merged_d_profile.1 =? new_d_profile.1)
       || negb (merged_d_profile.2 =? new_d_profile.2)
    then set_depth_merged_frame None
    else skip
  else skip.

(** ** Sample frames

    Two 2x2 bundles of one HDR pair (counters 7 and 8, sequence ids 0
    and 1) and variations of them, on which the properties below are
    evaluated. *)

Definition sample_info (counter id : Z) : frame_info :=
  {| frame_counter := Some counter;
     subpreset_sequence_size := Some 2;
     subpreset_sequence_id := Some id;
     profile_width := 2;
     profile_height := 2 |}.

Definition sample_video (counter id : Z) (data : list Z) : video_frame :=
  {| video_info := sample_info counter id; width := 2; height := 2; pixels := data |}.

Definition sample_set (counter id : Z) (depth_data ir_data : list Z) : frameset :=
  {| set_info := sample_info counter id;
     depth_stream := Some (sample_video counter id depth_data);
     infrared_stream := Some (sample_video counter id ir_data) |}.

Definition sample_first : frameset := sample_set 7 0 [5; 0; 0; 5] [100; 100; 100; 3].

Definition sample_second : frameset := sample_set 8 1 [7; 7; 0; 9] [100; 100; 100; 100].

(** Sequence id 1 again, two counters after [sample_first]. *)
Definition sample_late : frameset := sample_set 9 1 [1; 1; 1; 1] [100; 100; 100; 100].

(** Sequence id 1, with a counter below the one of [sample_first]. *)
Definition sample_early : frameset := sample_set 6 1 [1; 1; 1; 1] [100; 100; 100; 100].

(** The same pair streamed without infrared. *)
Definition depth_only (s : frameset) : frameset :=
  {| set_info := set_info s; depth_stream := depth_stream s; infrared_stream := None |}.

(** A depth channel that carries the sequence size but not the
    sequence id. *)
Definition sample_without_id : frameset :=
  {| set_info := sample_info 7 0;
     depth_stream :=
       Some {| video_info :=
                 {| frame_counter := Some 7;
                    subpreset_sequence_size := Some 2;
                    subpreset_sequence_id := None;
                    profile_width := 2;
                    profile_height := 2 |};
               width := 2; height := 2; pixels := [5; 0; 0; 5] |};
     infrared_stream := None |}.

Definition working_source : frame_source :=
  {| allocation_succeeds := true; fresh_memory := 77 |}.

Definition exhausted_source : frame_source :=
  {| allocation_succeeds := false; fresh_memory := 77 |}.

Section thresholds.

(** The saturation thresholds are constants of the header. *)
Variable IR_UNDER_SATURATED_VALUE : Z.
Variable IR_OVER_SATURATED_VALUE : Z.

(** ** hdr_merge::is_infrared_valid *)

Definition is_infrared_valid (ir_value : Z) : bool :=
  (ir_value >? IR_UNDER_SATURATED_VALUE) && (ir_value <? IR_OVER_SATURATED_VALUE).

(** ** hdr_merge::merging_algorithm *)

(** [v && d[i]]: the depth word is read only when [v] holds. *)
Definition and_nonzero (v : bool) (d : list Z) (i : nat) : result bool :=
  if v then x ← read d i; mret (negb (x =? 0)) else mret false.

(** The body of the loop that uses infrared. *)
Definition pixel_with_ir (i0 i1 d0 d1 : list Z) (i : nat) : result Z :=
  a ← read i0 i;
  first_ok ← and_nonzero (is_infrared_valid a) d0 i;
  if first_ok : bool then read d0 i
  else
    b ← read i1 i;
    second_ok ← and_nonzero (is_infrared_valid b) d1 i;
    if second_ok : bool then read d1 i
    else mret 0.

(** The body of the depth-only loop. *)
Definition pixel_depth_only (d0 d1 : list Z) (i : nat) : result Z :=
  x ← read d0 i;
  if negb (x =? 0) then read d0 i
  else
    y ← read d1 i;
    if negb (y =? 0) then read d1 i
    else mret 0.

Definition merging_algorithm (source : frame_source)
    (first_fs second_fs : option frameset) (use_ir : bool)
    : result (option frame_object) :=
  let first := first_fs in
  let second := second_fs in
  let first_depth := get_depth_frame first in
  let second_depth := get_depth_frame second in
  let first_ir := get_infrared_frame first in
  let second_ir := get_infrared_frame second in
  (* new frame allocation *)
  match first_depth with
  | None => Raise null_handle              (* vf.get_width() *)
  | Some vf =>
    let new_width := width vf in
    let new_height := height vf in
    let new_f :=
      allocate_video_frame source
        (profile_width (video_info vf), profile_height (video_info vf))
        vf new_width new_height in
    match new_f with
    | Some ptr =>
      d0 ← get_data first_depth;
      d1 ← get_data second_depth;
      let count := Z.to_nat (new_width * new_height) in
      let new_data := memset_zero (pixels ptr) count in
      new_data ←
        (if use_ir then
           i0 ← get_data first_ir;
           i1 ← get_data second_ir;
           for_each_pixel (pixel_with_ir i0 i1 d0 d1) count 0%nat new_data
         else
           for_each_pixel (pixel_depth_only d0 d1) count 0%nat new_data);
      mret (Some (plain {| video_info := video_info ptr;
                           width := width ptr;
                           height := height ptr;
                           pixels := new_data |}))
    | None => mret (composite <$> first_fs)
    end
  end.

(** ** hdr_merge::process_frame

    The function is cut along the steps its own comments number. *)

(** 2. add the frameset to vector of framesets.  [size()] is unsigned
    and the id is a signed metadata value; a negative id converts to a
    value no buffer size reaches, so the test is the equality of the
    two integers. *)
Definition add_frameset (fs : option frameset) (depth_seq_id : Z) : action unit :=
  framesets ← get_framesets;
  if bool_decide (Z.of_nat (size framesets) = depth_seq_id)
  then set_framesets (<[depth_seq_id := fs]> framesets)
  else skip.

(** 3. check if size of this vector is at least 2;
    4. pop out both framesets from the vector.
    [_framesets[k]] of a key that is absent yields a null frameset. *)
Definition pop_framesets : action (option (option frameset * option frameset)) :=
  framesets ← get_framesets;
  if bool_decide (2 ≤ size framesets)%nat then
    let fs_0 := default None (framesets !! 0) in
    let fs_1 := default None (framesets !! 1) in
    set_framesets ∅;;
    mret (Some (fs_0, fs_1))
  else mret None.

(** 5. apply merge algo; 6. save merge frame as latest merge frame;
    otherwise the staleness guard. *)
Definition merge_or_discard (source : frame_source) (f : option frame_object)
    (fs_0 fs_1 : option frameset) : action unit :=
  let use_ir := false in
  '(mergeable, use_ir) ← lift (check_frames_mergeability fs_0 fs_1 use_ir);
  if mergeable : bool then
    new_frame ← lift (merging_algorithm source fs_0 fs_1 use_ir);
    if bool_decide (is_Some new_frame)
    then set_depth_merged_frame new_frame
    else skip
  else discard_depth_merged_frame_if_needed f.

Definition process_frame (source : frame_source) (f : option frame_object)
    : action (option frame_object) :=
  (* 1. get depth frame from incoming frameset *)
  let fs := as_frameset f in
  let depth_frame := get_depth_frame fs in
  depth_seq_id ←
    lift (get_frame_metadata depth_frame RS2_FRAME_METADATA_SUBPRESET_SEQUENCE_ID);
  add_frameset fs depth_seq_id;;
  popped ← pop_framesets;
  match popped with
  | Some (fs_0, fs_1) => merge_or_discard source f fs_0 fs_1
  | None => skip
  end;;
  (* 7. return the merge frame *)
  merged ← get_depth_merged_frame;
  if bool_decide (is_Some merged) then mret merged else mret f.

(** The state after a sequence of invocations, whatever each of them
    returned or raised. *)
Definition invoke (this : hdr_merge) (call : frame_source * option frame_object)
    : hdr_merge :=
  (process_frame call.1 call.2 this).2.

Definition run (calls : list (frame_source * option frame_object)) : hdr_merge :=
  fold_left invoke calls hdr_merge_new.

(** ** Definitions used to state the properties *)

(** The values [static_cast<int>] leaves as they are. *)
Definition fits_int (x : Z) : Prop := - 2 ^ 31 ≤ x < 2 ^ 31.

(** The value the depth-only body stores for depth words [x] and [y]. *)
Definition select_depth_only (x y : Z) : Z :=
  if negb (x =? 0) then x else if negb (y =? 0) then y else 0.

(** The value the infrared-gated body stores for depth words [x], [y]
    and infrared bytes [a], [b]. *)
Definition select_with_ir (a b x y : Z) : Z :=
  if is_infrared_valid a && negb (x =? 0) then x
  else if is_infrared_valid b && negb (y =? 0) then y
  else 0.

(** The buffer after steps 2 to 4 of an invocation that read sequence
    id [k] from frameset [fs]. *)
Definition buffer_after (m : gmap Z (option frameset)) (fs : option frameset)
    (k : Z) : gmap Z (option frameset) :=
  let m' := if bool_decide (Z.of_nat (size m) = k) then <[k := fs]> m else m in
  if bool_decide (2 ≤ size m')%nat then ∅ else m'.

(** What the buffer looks like between two invocations: empty, or slot 0
    alone, holding a bundle whose depth channel has sequence id 0. *)
Definition holds_slot_0 (m : gmap Z (option frameset)) : Prop :=
  ∃ s d, m = {[0 := Some s]}
         ∧ depth_stream s = Some d
         ∧ subpreset_sequence_id (video_info d) = Some 0.

Definition between_invocations (m : gmap Z (option frameset)) : Prop :=
  m = ∅ ∨ holds_slot_0 m.

(** The tail of [process_frame], from step 3 on. *)
Definition finish (source : frame_source) (f : option frame_object)
    : action (option frame_object) :=
  popped ← pop_framesets;
  match popped with
  | Some (fs_0, fs_1) => merge_or_discard source f fs_0 fs_1
  | None => skip
  end;;
  merged ← get_depth_merged_frame;
  if bool_decide (is_Some merged) then mret merged else mret f.

(** Step 7. *)
Definition latest_or (f : option frame_object) (this : hdr_merge)
    : option frame_object :=
  if bool_decide (is_Some (_depth_merged_frame this))
  then _depth_merged_frame this else f.

(** * Properties *)

(** ** Reads of pixel buffers *)

Lemma read_Some buf i v : buf !! i = Some v → read buf i = Ok v.
Proof. unfold read. by intros ->. Qed.

Lemma read_in_range buf i :
  (i < length buf)%nat → ∃ v, buf !! i = Some v ∧ read buf i = Ok v.
Proof.
  intros Hi. destruct (lookup_lt_is_Some_2 buf i Hi) as [v Hv].
  exists v. split; [done | by apply read_Some].
Qed.

(** ** The merge loop *)

Lemma length_memset_zero buf n : length (memset_zero buf n) = length buf.
Proof.
  unfold memset_zero. rewrite length_app, length_replicate, length_drop. lia.
Qed.

(** A loop whose body returns [g j] at every index it visits completes,
    writes [g j] at these indices and leaves the lower ones alone. *)
Lemma for_each_pixel_writes body g count :
  ∀ i new_data,
    (∀ j, (i ≤ j < i + count)%nat → body j = Ok (g j)) →
    (i + count ≤ length new_data)%nat →
    ∃ out,
      for_each_pixel body count i new_data = Ok out
      ∧ length out = length new_data
      ∧ (∀ j, (i ≤ j < i + count)%nat → out !! j = Some (g j))
      ∧ (∀ j, (j < i)%nat → out !! j = new_data !! j).
Proof.
  induction count as [|count IH]; intros i new_data Hbody Hlen; simpl.
  - exists new_data. split_and!; [done..| |done]. intros j Hj. lia.
  - rewrite (Hbody i) by lia. simpl.
    destruct (IH (S i) (<[i := g i]> new_data)) as (out & Hrun & Hlen' & Hnew & Hold).
    + intros j Hj. apply Hbody. lia.
    + rewrite length_insert. lia.
    + exists out. rewrite length_insert in Hlen'. split_and!; [done..| |].
      * intros j Hj. destruct (decide (j = i)) as [->|Hne].
        -- rewrite Hold by lia. apply list_lookup_insert_eq. lia.
        -- apply Hnew. lia.
      * intros j Hj. rewrite Hold by lia. apply list_lookup_insert_ne. lia.
Qed.

Lemma pixel_depth_only_Ok d0 d1 i x y :
  d0 !! i = Some x → d1 !! i = Some y →
  pixel_depth_only d0 d1 i = Ok (select_depth_only x y).
Proof.
  intros H0 H1. unfold pixel_depth_only, select_depth_only.
  rewrite (read_Some _ _ _ H0), (read_Some _ _ _ H1). simpl.
  destruct (x =? 0); simpl; [|done]. by destruct (y =? 0).
Qed.

Lemma pixel_with_ir_Ok i0 i1 d0 d1 i a b x y :
  i0 !! i = Some a → i1 !! i = Some b →
  d0 !! i = Some x → d1 !! i = Some y →
  pixel_with_ir i0 i1 d0 d1 i = Ok (select_with_ir a b x y).
Proof.
  intros Ha Hb Hx Hy. unfold pixel_with_ir, select_with_ir, and_nonzero.
  rewrite (read_Some _ _ _ Ha), (read_Some _ _ _ Hb),
    (read_Some _ _ _ Hx), (read_Some _ _ _ Hy). simpl.
  destruct (is_infrared_valid a), (x =? 0); simpl; try done;
    destruct (is_infrared_valid b), (y =? 0); simpl; done.
Qed.

(** C1.  When the allocation succeeds and the source buffers hold at
    least width*height elements, the merge completes and returns a
    fresh depth frame of width*height pixels in which, for every index
    [i] below width*height: without infrared, pixel [i] is
    [first.depth[i]] if that is nonzero, else [second.depth[i]] if that
    is nonzero, else 0; with infrared, pixel [i] is [first.depth[i]] if
    [first_ir[i]] is valid and [first.depth[i]] is nonzero, else
    [second.depth[i]] if [second_ir[i]] is valid and [second.depth[i]]
    is nonzero, else 0. *)
Theorem merging_algorithm_selects_per_pixel
    (source : frame_source) (first second : frameset) (d0 d1 : video_frame) :
  let count := Z.to_nat (width d0 * height d0) in
  allocation_succeeds source = true →
  depth_stream first = Some d0 →
  depth_stream second = Some d1 →
  (count ≤ length (pixels d0))%nat →
  (count ≤ length (pixels d1))%nat →
  (∃ merged,
      merging_algorithm source (Some first) (Some second) false
        = Ok (Some (plain merged))
      ∧ length (pixels merged) = count
      ∧ ∀ (i : nat) x y,
          (i < count)%nat →
          pixels d0 !! i = Some x → pixels d1 !! i = Some y →
          pixels merged !! i
            = Some (if negb (x =? 0) then x
                    else if negb (y =? 0) then y else 0))
  ∧ (∀ ir0 ir1 : video_frame,
      infrared_stream first = Some ir0 →
      infrared_stream second = Some ir1 →
      (count ≤ length (pixels ir0))%nat →
      (count ≤ length (pixels ir1))%nat →
      ∃ merged,
        merging_algorithm source (Some first) (Some second) true
          = Ok (Some (plain merged))
        ∧ length (pixels merged) = count
        ∧ ∀ (i : nat) a b x y,
            (i < count)%nat →
            pixels ir0 !! i = Some a → pixels ir1 !! i = Some b →
            pixels d0 !! i = Some x → pixels d1 !! i = Some y →
            pixels merged !! i
              = Some (if is_infrared_valid a && negb (x =? 0) then x
                      else if is_infrared_valid b && negb (y =? 0) then y
                      else 0)).
Proof.
  intros count Halloc Hd0 Hd1 Hlen0 Hlen1.
  assert (Hbuf : ∀ fresh,
    length (memset_zero (replicate count fresh) count) = count).
  { intros fresh. by rewrite length_memset_zero, length_replicate. }
  split.
  - destruct (for_each_pixel_writes
                (pixel_depth_only (pixels d0) (pixels d1))
                (λ j, select_depth_only (default 0 (pixels d0 !! j))
                                        (default 0 (pixels d1 !! j)))
                count 0%nat
                (memset_zero (replicate count (fresh_memory source)) count))
      as (out & Hrun & Hlen & Hnew & _).
    + intros j Hj.
      destruct (read_in_range (pixels d0) j) as (x & Hx & _); [lia|].
      destruct (read_in_range (pixels d1) j) as (y & Hy & _); [lia|].
      rewrite Hx, Hy. simpl. by apply pixel_depth_only_Ok.
    + rewrite Hbuf. lia.
    + eexists. split_and!.
      * unfold merging_algorithm, allocate_video_frame. simpl.
        rewrite Hd0, Hd1, Halloc. simpl. fold count. rewrite Hrun. done.
      * simpl. by rewrite Hlen, Hbuf.
      * intros i x y Hi Hx Hy. simpl. rewrite Hnew by lia.
        by rewrite Hx, Hy.
  - intros ir0 ir1 Hir0 Hir1 Hlen2 Hlen3.
    destruct (for_each_pixel_writes
                (pixel_with_ir (pixels ir0) (pixels ir1) (pixels d0) (pixels d1))
                (λ j, select_with_ir (default 0 (pixels ir0 !! j))
                                     (default 0 (pixels ir1 !! j))
                                     (default 0 (pixels d0 !! j))
                                     (default 0 (pixels d1 !! j)))
                count 0%nat
                (memset_zero (replicate count (fresh_memory source)) count))
      as (out & Hrun & Hlen & Hnew & _).
    + intros j Hj.
      destruct (read_in_range (pixels ir0) j) as (a & Ha & _); [lia|].
      destruct (read_in_range (pixels ir1) j) as (b & Hb & _); [lia|].
      destruct (read_in_range (pixels d0) j) as (x & Hx & _); [lia|].
      destruct (read_in_range (pixels d1) j) as (y & Hy & _); [lia|].
      rewrite Ha, Hb, Hx, Hy. simpl. by apply pixel_with_ir_Ok.
    + rewrite Hbuf. lia.
    + eexists. split_and!.
      * unfold merging_algorithm, allocate_video_frame. simpl.
        rewrite Hd0, Hd1, Hir0, Hir1, Halloc. simpl. fold count.
        rewrite Hrun. done.
      * simpl. by rewrite Hlen, Hbuf.
      * intros i a b x y Hi Ha Hb Hx Hy. simpl. rewrite Hnew by lia.
        by rewrite Ha, Hb, Hx, Hy.
Qed.

(** ** The saturation band *)

(** C4, as amended.  An infrared value is valid exactly when it lies
    strictly between the two thresholds: the band is open at the
    under-saturation threshold and open at the over-saturation
    threshold as well. *)
Theorem is_infrared_valid_iff_strictly_between (ir_value : Z) :
  is_infrared_valid ir_value = true
  ↔ IR_UNDER_SATURATED_VALUE < ir_value < IR_OVER_SATURATED_VALUE.
Proof.
  unfold is_infrared_valid. rewrite andb_true_iff, Z.gtb_lt, Z.ltb_lt. lia.
Qed.

(** ** Admission *)

(** C8, as amended.  A frame is admitted exactly when it is a frameset
    with a depth channel that carries the sequence size field with
    value 2 and carries the sequence id field: a depth channel that
    lacks either one of the two fields is rejected. *)
Theorem should_process_iff (frame : option frame_object) :
  should_process frame = true
  ↔ ∃ set depth_frame id,
      frame = Some (composite set)
      ∧ depth_stream set = Some depth_frame
      ∧ subpreset_sequence_size (video_info depth_frame) = Some 2
      ∧ subpreset_sequence_id (video_info depth_frame) = Some id.
Proof.
  split.
  - destruct frame as [[v|set]|]; simpl; try done.
    destruct (depth_stream set) as [d|] eqn:Hd; simpl; [|done].
    unfold supports_frame_metadata, read_metadata. simpl.
    destruct (subpreset_sequence_size (video_info d)) as [sz|] eqn:Hsz; simpl; [|done].
    destruct (subpreset_sequence_id (video_info d)) as [id|] eqn:Hid; simpl; [|done].
    destruct (Z.eqb_spec sz 2) as [->|]; simpl; [|done].
    intros _. by exists set, d, id.
  - intros (set & d & id & -> & Hd & Hsz & Hid). simpl. rewrite Hd. simpl.
    unfold supports_frame_metadata, read_metadata. simpl.
    by rewrite Hsz, Hid.
Qed.

(** ** The pair validator *)

Lemma differ_Ok (x y : Z) : differ (Ok x) (Ok y) = Ok (negb (x =? y)).
Proof. done. Qed.

(** What the validator computes once the two depth channels and their
    frame counters are at hand. *)
Lemma check_frames_mergeability_unfold
    (first second : frameset) (d0 d1 : video_frame) (c0 c1 : Z) (use_ir : bool) :
  depth_stream first = Some d0 →
  depth_stream second = Some d1 →
  frame_counter (video_info d0) = Some c0 →
  frame_counter (video_info d1) = Some c1 →
  check_frames_mergeability (Some first) (Some second) use_ir
  = if bool_decide (c0 + 1 = c1 ∧ width d0 = width d1 ∧ height d0 = height d1)
    then
      u ← should_ir_be_used_for_merging
             (Some d0) (infrared_stream first) (Some d1) (infrared_stream second);
      mret (true, u)
    else Ok (false, use_ir).
Proof.
  intros Hd0 Hd1 Hc0 Hc1. unfold check_frames_mergeability. simpl.
  rewrite Hd0, Hd1. simpl. unfold read_metadata. simpl. rewrite Hc0, Hc1. simpl.
  destruct (Z.eqb_spec (c0 + 1) c1) as [Hadj|Hadj]; simpl.
  - rewrite ?differ_Ok. simpl.
    destruct (Z.eqb_spec (height d0) (height d1)) as [Hh|Hh]; simpl.
    + destruct (Z.eqb_spec (width d0) (width d1)) as [Hw|Hw]; simpl.
      * by rewrite bool_decide_true.
      * rewrite bool_decide_false; [done | tauto].
    + rewrite bool_decide_false; [done | tauto].
  - rewrite bool_decide_false; [done | tauto].
Qed.

(** The verdict on pairs on which the eligibility check returns.  For
    a pair of bundles with depth channels that carry frame counters,
    on which the infrared eligibility check run by the validator does
    not raise: the validator reports mergeable if and only if the
    second counter is the first plus one and the two depth channels
    have the same width and the same height; it reports not-mergeable
    (leaving [use_ir] as it was) if and only if that fails; in
    particular counters N and N+2 are not mergeable. *)
Theorem check_frames_mergeability_iff
    (first second : frameset) (d0 d1 : video_frame) (c0 c1 : Z) (use_ir : bool) :
  depth_stream first = Some d0 →
  depth_stream second = Some d1 →
  frame_counter (video_info d0) = Some c0 →
  frame_counter (video_info d1) = Some c1 →
  raises (should_ir_be_used_for_merging
            (Some d0) (infrared_stream first)
            (Some d1) (infrared_stream second)) = false →
  ((∃ u, check_frames_mergeability (Some first) (Some second) use_ir = Ok (true, u))
     ↔ c1 = c0 + 1 ∧ width d0 = width d1 ∧ height d0 = height d1)
  ∧ (check_frames_mergeability (Some first) (Some second) use_ir = Ok (false, use_ir)
     ↔ ¬ (c1 = c0 + 1 ∧ width d0 = width d1 ∧ height d0 = height d1))
  ∧ (c1 = c0 + 2 →
     check_frames_mergeability (Some first) (Some second) use_ir = Ok (false, use_ir)).
Proof.
  intros Hd0 Hd1 Hc0 Hc1 Hir.
  rewrite (check_frames_mergeability_unfold _ _ _ _ _ _ _ Hd0 Hd1 Hc0 Hc1).
  destruct (should_ir_be_used_for_merging _ _ _ _) as [u|e]; [clear Hir|done].
  simpl. case_bool_decide as Hok.
  - split_and!.
    + split; [intros _; split_and!; lia || tauto | intros _; by exists u].
    + split; [done | intros Hn; exfalso; apply Hn; split_and!; lia || tauto].
    + intros ->. lia.
  - split_and!.
    + split; [by intros [u' ?] | intros (-> & ? & ?); exfalso; by apply Hok].
    + split; [intros _ (-> & ? & ?); by apply Hok | done].
    + done.
Qed.

(** ** The infrared eligibility check *)

Lemma static_cast_int_id (x : Z) : fits_int x → static_cast_int x = x.
Proof.
  unfold fits_int, static_cast_int. intros Hx. rewrite Z.mod_small; lia.
Qed.

(** With an infrared channel in both bundles and the counters and
    sequence ids present on the four channels, the check returns, and
    it returns true exactly when the first depth, first infrared and
    second infrared channels have one size, the counters agree as
    32-bit integers and the sequence ids agree. *)
Lemma should_ir_be_used_for_merging_present
    (d0 i0 d1 i1 : video_frame) (c0 ci0 c1 ci1 s0 si0 s1 si1 : Z) :
  frame_counter (video_info d0) = Some c0 →
  frame_counter (video_info i0) = Some ci0 →
  frame_counter (video_info d1) = Some c1 →
  frame_counter (video_info i1) = Some ci1 →
  subpreset_sequence_id (video_info d0) = Some s0 →
  subpreset_sequence_id (video_info i0) = Some si0 →
  subpreset_sequence_id (video_info d1) = Some s1 →
  subpreset_sequence_id (video_info i1) = Some si1 →
  should_ir_be_used_for_merging (Some d0) (Some i0) (Some d1) (Some i1)
  = Ok (bool_decide
          ((height d0 = height i0 ∧ width d0 = width i0
            ∧ height i1 = height i0 ∧ width i1 = width i0)
           ∧ static_cast_int c0 = static_cast_int ci0
           ∧ static_cast_int c1 = static_cast_int ci1
           ∧ s0 = si0 ∧ s1 = si1)).
Proof.
  intros Hc0 Hci0 Hc1 Hci1 Hs0 Hsi0 Hs1 Hsi1.
  unfold should_ir_be_used_for_merging. simpl. rewrite ?differ_Ok. simpl.
  unfold read_metadata. simpl.
  rewrite Hc0, Hci0, Hc1, Hci1, Hs0, Hsi0, Hs1, Hsi1. simpl.
  repeat match goal with
  | |- context [Z.eqb ?x ?y] => destruct (Z.eqb_spec x y); simpl
  end;
  first [ by rewrite bool_decide_true
        | rewrite bool_decide_false; [done | tauto] ].
Qed.

(** For counters that fit in 32 bits the comparison of the casts is the
    comparison of the counters. *)
Lemma should_ir_be_used_for_merging_in_range
    (d0 i0 d1 i1 : video_frame) (c0 ci0 c1 ci1 s0 si0 s1 si1 : Z) :
  frame_counter (video_info d0) = Some c0 →
  frame_counter (video_info i0) = Some ci0 →
  frame_counter (video_info d1) = Some c1 →
  frame_counter (video_info i1) = Some ci1 →
  subpreset_sequence_id (video_info d0) = Some s0 →
  subpreset_sequence_id (video_info i0) = Some si0 →
  subpreset_sequence_id (video_info d1) = Some s1 →
  subpreset_sequence_id (video_info i1) = Some si1 →
  Forall fits_int [c0; ci0; c1; ci1] →
  should_ir_be_used_for_merging (Some d0) (Some i0) (Some d1) (Some i1)
  = Ok (bool_decide
          ((height d0 = height i0 ∧ width d0 = width i0
            ∧ height i1 = height i0 ∧ width i1 = width i0)
           ∧ c0 = ci0 ∧ c1 = ci1 ∧ s0 = si0 ∧ s1 = si1)).
Proof.
  intros Hc0 Hci0 Hc1 Hci1 Hs0 Hsi0 Hs1 Hsi1 Hfit.
  rewrite (should_ir_be_used_for_merging_present d0 i0 d1 i1
             c0 ci0 c1 ci1 s0 si0 s1 si1) by done.
  apply Forall_cons in Hfit as [H0 Hfit]. apply Forall_cons in Hfit as [H1 Hfit].
  apply Forall_cons in Hfit as [H2 Hfit]. apply Forall_cons in Hfit as [H3 _].
  by rewrite !static_cast_int_id.
Qed.

(** When the first bundle has no infrared channel the check does not
    return false: the height query on the null handle raises. *)
Lemma should_ir_be_used_for_merging_without_ir
    (d0 : video_frame) (d1 second_ir : option video_frame) :
  should_ir_be_used_for_merging (Some d0) None d1 second_ir = Raise null_handle.
Proof. done. Qed.

(** ** The steps of [process_frame] *)

Lemma add_frameset_eq fs k this :
  add_frameset fs k this
  = (Ok tt,
     {| _framesets :=
          if bool_decide (Z.of_nat (size (_framesets this)) = k)
          then <[k := fs]> (_framesets this) else _framesets this;
        _depth_merged_frame := _depth_merged_frame this |}).
Proof.
  unfold add_frameset, mbind, action_bind, get_framesets. simpl.
  case_bool_decide; simpl; [done|]. by destruct this.
Qed.

Lemma pop_framesets_eq this :
  pop_framesets this
  = if bool_decide (2 ≤ size (_framesets this))%nat
    then (Ok (Some (default None (_framesets this !! 0),
                    default None (_framesets this !! 1))),
          {| _framesets := ∅; _depth_merged_frame := _depth_merged_frame this |})
    else (Ok None, this).
Proof.
  unfold pop_framesets, mbind, action_bind, get_framesets. simpl.
  by case_bool_decide.
Qed.

Lemma discard_keeps_framesets f this :
  _framesets (discard_depth_merged_frame_if_needed f this).2 = _framesets this.
Proof.
  unfold discard_depth_merged_frame_if_needed, mbind, action_bind,
    get_depth_merged_frame, lift. simpl.
  case_bool_decide; simpl; [|done].
  destruct (frame_get_frame_metadata (_depth_merged_frame this) _); simpl; [|done].
  destruct (frame_get_frame_metadata f _); simpl; [|done].
  destruct (get_profile (_depth_merged_frame this)); simpl; [|done].
  destruct (get_profile f); simpl; [|done].
  by destruct (_ || _).
Qed.

Lemma merge_or_discard_keeps_framesets source f fs_0 fs_1 this :
  _framesets (merge_or_discard source f fs_0 fs_1 this).2 = _framesets this.
Proof.
  unfold merge_or_discard, mbind at 1, action_bind, lift. simpl.
  destruct (check_frames_mergeability fs_0 fs_1 false) as [[[|] u]|e]; simpl;
    [ | apply discard_keeps_framesets | done].
  unfold mbind, action_bind. simpl.
  destruct (merging_algorithm source fs_0 fs_1 u) as [new_frame|e]; simpl; [|done].
  by case_bool_decide.
Qed.

Lemma process_frame_eq source f this :
  process_frame source f this
  = match get_frame_metadata (get_depth_frame (as_frameset f))
            RS2_FRAME_METADATA_SUBPRESET_SEQUENCE_ID with
    | Ok k => finish source f (add_frameset (as_frameset f) k this).2
    | Raise e => (Raise e, this)
    end.
Proof.
  unfold process_frame, finish, mbind at 1, action_bind at 1, lift. simpl.
  destruct (get_frame_metadata _ _) as [k|e]; simpl; [|done].
  unfold mbind at 1, action_bind at 1. by rewrite add_frameset_eq.
Qed.

Lemma finish_framesets source f this :
  _framesets (finish source f this).2
  = if bool_decide (2 ≤ size (_framesets this))%nat then ∅ else _framesets this.
Proof.
  unfold finish, mbind at 1, action_bind at 1. rewrite pop_framesets_eq.
  case_bool_decide; simpl.
  - unfold mbind at 1, action_bind at 1.
    set (this' := {| _framesets := ∅;
                     _depth_merged_frame := _depth_merged_frame this |}).
    pose proof (merge_or_discard_keeps_framesets source f
                  (default None (_framesets this !! 0))
                  (default None (_framesets this !! 1)) this') as Hkeep.
    destruct (merge_or_discard _ _ _ _ this') as [[[]|e] this'']; simpl in *;
      [|done].
    unfold mbind, action_bind, get_depth_merged_frame. simpl.
    by case_bool_decide.
  - unfold mbind, action_bind, skip, get_depth_merged_frame. simpl.
    by case_bool_decide.
Qed.

(** The buffer an invocation leaves behind. *)
Lemma process_frame_framesets source f this :
  _framesets (process_frame source f this).2
  = match get_frame_metadata (get_depth_frame (as_frameset f))
            RS2_FRAME_METADATA_SUBPRESET_SEQUENCE_ID with
    | Ok k => buffer_after (_framesets this) (as_frameset f) k
    | Raise _ => _framesets this
    end.
Proof.
  rewrite process_frame_eq.
  destruct (get_frame_metadata _ _) as [k|e]; [|done].
  rewrite finish_framesets, add_frameset_eq. done.
Qed.

Lemma sequence_id_read f k :
  get_frame_metadata (get_depth_frame (as_frameset f))
    RS2_FRAME_METADATA_SUBPRESET_SEQUENCE_ID = Ok k →
  ∃ s d, f = Some (composite s)
         ∧ depth_stream s = Some d
         ∧ subpreset_sequence_id (video_info d) = Some k.
Proof.
  destruct f as [[v|s]|]; simpl; try done.
  destruct (depth_stream s) as [d|] eqn:Hd; simpl; [|done].
  unfold read_metadata. simpl.
  destruct (subpreset_sequence_id (video_info d)) as [k'|] eqn:Hk; [|done].
  intros [= ->]. by exists s, d.
Qed.

Lemma buffer_after_between_invocations m f k :
  get_frame_metadata (get_depth_frame (as_frameset f))
    RS2_FRAME_METADATA_SUBPRESET_SEQUENCE_ID = Ok k →
  between_invocations m →
  between_invocations (buffer_after m (as_frameset f) k).
Proof.
  intros Hk Hm. destruct (sequence_id_read f k Hk) as (s & d & -> & Hd & Hid).
  unfold buffer_after. simpl.
  destruct Hm as [->|(s0 & d0 & -> & Hd0 & Hid0)].
  - rewrite map_size_empty.
    destruct (decide (Z.of_nat 0 = k)) as [Hsz|Hsz].
    + rewrite (bool_decide_true _ Hsz). subst k.
      rewrite insert_empty, map_size_singleton.
      rewrite bool_decide_false by lia. right. by exists s, d.
    + rewrite (bool_decide_false _ Hsz).
      rewrite map_size_empty, bool_decide_false by lia. by left.
  - rewrite map_size_singleton.
    destruct (decide (Z.of_nat 1 = k)) as [Hsz|Hsz].
    + rewrite (bool_decide_true _ Hsz). subst k.
      rewrite map_size_insert_None, map_size_singleton
        by (by rewrite lookup_singleton_ne).
      rewrite bool_decide_true by lia. by left.
    + rewrite (bool_decide_false _ Hsz).
      rewrite map_size_singleton, bool_decide_false by lia.
      right. by exists s0, d0.
Qed.

Lemma process_frame_between_invocations source f this :
  between_invocations (_framesets this) →
  between_invocations (_framesets (process_frame source f this).2).
Proof.
  intros Hm. rewrite process_frame_framesets.
  destruct (get_frame_metadata _ _) as [k|e] eqn:Hk; [|done].
  by apply buffer_after_between_invocations.
Qed.

Lemma run_app calls1 calls2 :
  run (calls1 ++ calls2) = fold_left invoke calls2 (run calls1).
Proof. unfold run. by rewrite fold_left_app. Qed.

Lemma run_between_invocations calls :
  between_invocations (_framesets (run calls)).
Proof.
  induction calls as [|call calls IH] using rev_ind.
  - by left.
  - rewrite run_app. simpl. by apply process_frame_between_invocations.
Qed.

(** ** One invocation, step by step *)

Lemma finish_incomplete source f this :
  (size (_framesets this) < 2)%nat →
  finish source f this = (Ok (latest_or f this), this).
Proof.
  intros Hsz. unfold finish, mbind at 1, action_bind at 1.
  rewrite pop_framesets_eq, bool_decide_false by lia. simpl.
  unfold mbind, action_bind, skip, get_depth_merged_frame, latest_or. simpl.
  by case_bool_decide.
Qed.

Lemma finish_pair source f this :
  (2 ≤ size (_framesets this))%nat →
  finish source f this
  = match merge_or_discard source f
            (default None (_framesets this !! 0))
            (default None (_framesets this !! 1))
            {| _framesets := ∅;
               _depth_merged_frame := _depth_merged_frame this |} with
    | (Ok _, this') => (Ok (latest_or f this'), this')
    | (Raise e, this') => (Raise e, this')
    end.
Proof.
  intros Hsz. unfold finish, mbind at 1, action_bind at 1.
  rewrite pop_framesets_eq, bool_decide_true by lia. simpl.
  unfold mbind at 1, action_bind at 1.
  destruct (merge_or_discard _ _ _ _ _) as [[[]|e] this']; simpl; [|done].
  unfold mbind, action_bind, get_depth_merged_frame, latest_or. simpl.
  by case_bool_decide.
Qed.

Lemma merge_or_discard_not_mergeable source f fs_0 fs_1 u this :
  check_frames_mergeability fs_0 fs_1 false = Ok (false, u) →
  merge_or_discard source f fs_0 fs_1 this
  = discard_depth_merged_frame_if_needed f this.
Proof.
  intros Hcheck. unfold merge_or_discard, mbind at 1, action_bind, lift.
  by rewrite Hcheck.
Qed.

Lemma merge_or_discard_mergeable source f fs_0 fs_1 u new_frame this :
  check_frames_mergeability fs_0 fs_1 false = Ok (true, u) →
  merging_algorithm source fs_0 fs_1 u = Ok (Some new_frame) →
  merge_or_discard source f fs_0 fs_1 this
  = (Ok tt, {| _framesets := _framesets this;
               _depth_merged_frame := Some new_frame |}).
Proof.
  intros Hcheck Hmerge. unfold merge_or_discard, mbind at 1, action_bind, lift.
  rewrite Hcheck. simpl. unfold mbind, action_bind. by rewrite Hmerge.
Qed.

Lemma discard_without_cache f this :
  _depth_merged_frame this = None →
  discard_depth_merged_frame_if_needed f this = (Ok tt, this).
Proof.
  intros Hnone. unfold discard_depth_merged_frame_if_needed, mbind, action_bind,
    get_depth_merged_frame. simpl. by rewrite Hnone.
Qed.

Lemma discard_with_cache f input cached mc ic this :
  _depth_merged_frame this = Some cached →
  f = Some input →
  frame_counter (info_of cached) = Some mc →
  frame_counter (info_of input) = Some ic →
  discard_depth_merged_frame_if_needed f this
  = (Ok tt,
     if bool_decide (mc > ic
                     ∨ profile_width (info_of cached) ≠ profile_width (info_of input)
                     ∨ profile_height (info_of cached) ≠ profile_height (info_of input))
     then {| _framesets := _framesets this; _depth_merged_frame := None |}
     else this).
Proof.
  intros Hc -> Hmc Hic.
  unfold discard_depth_merged_frame_if_needed, mbind, action_bind,
    get_depth_merged_frame, lift. simpl. rewrite Hc. simpl.
  unfold read_metadata. simpl. rewrite Hmc, Hic. simpl.
  destruct (Z.gtb_spec mc ic) as [Hgt|Hgt]; simpl.
  { rewrite bool_decide_true; [done | left; lia]. }
  destruct (Z.eqb_spec (profile_width (info_of cached))
                       (profile_width (info_of input))) as [Hw|Hw]; simpl.
  2: { rewrite bool_decide_true; [done | tauto]. }
  destruct (Z.eqb_spec (profile_height (info_of cached))
                       (profile_height (info_of input))) as [Hh|Hh]; simpl.
  2: { rewrite bool_decide_true; [done | tauto]. }
  rewrite bool_decide_false; [done | lia].
Qed.

(** ** The sequence buffer between invocations *)

(** C10.  After every sequence of invocations the buffer holds at most
    one bundle; when it holds one, that bundle sits in slot 0 and its
    depth channel has sequence id 0; slot 1 is never occupied between
    invocations.  And in any state, an invocation whose insertion
    brings the occupancy to 2 leaves the buffer empty, whatever the
    validation and the merge then do. *)
Theorem sequence_buffer_between_invocations
    (calls : list (frame_source * option frame_object)) :
  let m := _framesets (run calls) in
  (size m ≤ 1)%nat
  ∧ (size m = 1%nat →
     ∃ s d, m = {[0 := Some s]}
            ∧ depth_stream s = Some d
            ∧ subpreset_sequence_id (video_info d) = Some 0)
  ∧ m !! 1 = None
  ∧ ∀ (this : hdr_merge) source f k,
      get_frame_metadata (get_depth_frame (as_frameset f))
        RS2_FRAME_METADATA_SUBPRESET_SEQUENCE_ID = Ok k →
      (2 ≤ size (_framesets (add_frameset (as_frameset f) k this).2))%nat →
      _framesets (process_frame source f this).2 = ∅.
Proof.
  intros m. split_and!.
  - destruct (run_between_invocations calls) as [Hm|(s & d & Hm & _)];
      fold m in Hm; rewrite Hm.
    + rewrite map_size_empty. lia.
    + by rewrite map_size_singleton.
  - intros Hsz.
    destruct (run_between_invocations calls) as [Hm|Hm]; fold m in Hm; [|done].
    rewrite Hm, map_size_empty in Hsz. lia.
  - destruct (run_between_invocations calls) as [Hm|(s & d & Hm & _)];
      fold m in Hm; rewrite Hm.
    + apply lookup_empty.
    + by apply lookup_singleton_ne.
  - intros this source f k Hk Hfull.
    rewrite process_frame_framesets, Hk. unfold buffer_after.
    rewrite add_frameset_eq in Hfull. simpl in Hfull.
    by rewrite bool_decide_true.
Qed.

(** C2.  In a state reached by any sequence of invocations, for a
    bundle whose depth channel has sequence id [k]: step 2 changes the
    buffer only if the occupancy equals [k]; if [k] differs from the
    occupancy the whole invocation leaves the buffer as it was and
    returns normally (so id 1 on an empty buffer is dropped in
    silence); and whenever a pair is popped, the
    incoming bundle has id 1 and is the second of the pair, and the
    first is the bundle with id 0 that alone occupied the buffer, in
    slot 0, before the invocation. *)
Theorem add_frameset_in_order
    (calls : list (frame_source * option frame_object))
    (source : frame_source) (f : option frame_object) (k : Z) :
  get_frame_metadata (get_depth_frame (as_frameset f))
    RS2_FRAME_METADATA_SUBPRESET_SEQUENCE_ID = Ok k →
  let this := run calls in
  (_framesets (add_frameset (as_frameset f) k this).2 ≠ _framesets this →
   Z.of_nat (size (_framesets this)) = k
   ∧ _framesets (add_frameset (as_frameset f) k this).2
     = <[k := as_frameset f]> (_framesets this))
  ∧ (k ≠ Z.of_nat (size (_framesets this)) →
     _framesets (add_frameset (as_frameset f) k this).2 = _framesets this
     ∧ _framesets (process_frame source f this).2 = _framesets this
     ∧ (process_frame source f this).1 = Ok (latest_or f this))
  ∧ (∀ fs_0 fs_1 this',
       pop_framesets (add_frameset (as_frameset f) k this).2
         = (Ok (Some (fs_0, fs_1)), this') →
       k = 1
       ∧ fs_1 = as_frameset f
       ∧ _framesets this = {[0 := fs_0]}
       ∧ ∃ s0 d0, fs_0 = Some s0
                  ∧ depth_stream s0 = Some d0
                  ∧ subpreset_sequence_id (video_info d0) = Some 0).
Proof.
  intros Hk this.
  pose proof (run_between_invocations calls) as Hm. fold this in Hm.
  split_and!.
  - rewrite add_frameset_eq. simpl. case_bool_decide; [done|]. by intros [].
  - intros Hne.
    assert (Hsz : (size (_framesets this) < 2)%nat).
    { destruct Hm as [->|(s & d & -> & _)].
      - rewrite map_size_empty. lia.
      - rewrite map_size_singleton. lia. }
    rewrite process_frame_framesets, process_frame_eq, Hk. unfold buffer_after.
    rewrite add_frameset_eq. simpl.
    rewrite bool_decide_false by congruence. split; [done|].
    rewrite bool_decide_false by lia. split; [done|].
    rewrite finish_incomplete by done. simpl. by destruct this.
  - intros fs_0 fs_1 this'. rewrite pop_framesets_eq, add_frameset_eq. simpl.
    destruct Hm as [Hm|(s0 & d0 & Hm & Hd0 & Hid0)]; rewrite Hm.
    + rewrite map_size_empty.
      destruct (decide (Z.of_nat 0 = k)) as [Hsz|Hsz].
      * rewrite (bool_decide_true _ Hsz), insert_empty, map_size_singleton.
        by rewrite bool_decide_false by lia.
      * rewrite (bool_decide_false _ Hsz), map_size_empty.
        by rewrite bool_decide_false by lia.
    + rewrite map_size_singleton.
      destruct (decide (Z.of_nat 1 = k)) as [Hsz|Hsz].
      * rewrite (bool_decide_true _ Hsz). subst k.
        rewrite map_size_insert_None, map_size_singleton
          by (by rewrite lookup_singleton_ne).
        rewrite bool_decide_true by lia.
        rewrite lookup_insert_ne, lookup_singleton_eq, lookup_insert_eq by done.
        simpl. intros [= <- <- _]. split_and!; [done..|]. by exists s0, d0.
      * rewrite (bool_decide_false _ Hsz), map_size_singleton.
        by rewrite bool_decide_false by lia.
Qed.

(** ** The result cache *)

(** C9.  When no merge is cached and this invocation produces none,
    because no pair is popped or because the popped pair fails
    validation, the invocation returns the raw input frame and the
    cache stays absent. *)
Theorem process_frame_passthrough
    (source : frame_source) (f : option frame_object) (this : hdr_merge) (k : Z) :
  _depth_merged_frame this = None →
  get_frame_metadata (get_depth_frame (as_frameset f))
    RS2_FRAME_METADATA_SUBPRESET_SEQUENCE_ID = Ok k →
  (∀ fs_0 fs_1 this',
     pop_framesets (add_frameset (as_frameset f) k this).2
       = (Ok (Some (fs_0, fs_1)), this') →
     ∃ u, check_frames_mergeability fs_0 fs_1 false = Ok (false, u)) →
  (process_frame source f this).1 = Ok f
  ∧ _depth_merged_frame (process_frame source f this).2 = None.
Proof.
  intros Hnone Hk Hfail. rewrite process_frame_eq, Hk.
  set (this1 := (add_frameset (as_frameset f) k this).2) in *.
  assert (Hnone1 : _depth_merged_frame this1 = None).
  { unfold this1. by rewrite add_frameset_eq. }
  destruct (decide (2 ≤ size (_framesets this1))%nat) as [Hfull|Hpart].
  - destruct (Hfail (default None (_framesets this1 !! 0))
                    (default None (_framesets this1 !! 1))
                    {| _framesets := ∅;
                       _depth_merged_frame := _depth_merged_frame this1 |})
      as [u Hcheck].
    { by rewrite pop_framesets_eq, bool_decide_true. }
    rewrite finish_pair by done.
    rewrite (merge_or_discard_not_mergeable _ _ _ _ u) by done.
    rewrite discard_without_cache by done. simpl.
    unfold latest_or. simpl. by rewrite Hnone1.
  - rewrite finish_incomplete by lia. simpl.
    unfold latest_or. by rewrite Hnone1.
Qed.

(** C6.  When the invocation pops a pair that fails validation while a
    merge is cached, the cache is set to absent if and only if the
    cached frame's counter is greater than the counter the input handle
    reports, or the cached frame's profile width or height differs from
    the width or height of the input handle's profile; if none of these
    holds the cache is kept and is the frame returned; if one holds the
    raw input is returned. *)
Theorem stale_cache_discarded
    (source : frame_source) (input cached : frame_object) (this : hdr_merge)
    (k mc ic : Z) (fs_0 fs_1 : option frameset) (this' : hdr_merge) (u : bool) :
  let f := Some input in
  get_frame_metadata (get_depth_frame (as_frameset f))
    RS2_FRAME_METADATA_SUBPRESET_SEQUENCE_ID = Ok k →
  pop_framesets (add_frameset (as_frameset f) k this).2
    = (Ok (Some (fs_0, fs_1)), this') →
  check_frames_mergeability fs_0 fs_1 false = Ok (false, u) →
  _depth_merged_frame this = Some cached →
  frame_counter (info_of cached) = Some mc →
  frame_counter (info_of input) = Some ic →
  let stale :=
    mc > ic
    ∨ profile_width (info_of cached) ≠ profile_width (info_of input)
    ∨ profile_height (info_of cached) ≠ profile_height (info_of input) in
  (_depth_merged_frame (process_frame source f this).2 = None ↔ stale)
  ∧ (¬ stale →
     _depth_merged_frame (process_frame source f this).2 = Some cached
     ∧ (process_frame source f this).1 = Ok (Some cached))
  ∧ (stale → (process_frame source f this).1 = Ok f).
Proof.
  intros f Hk Hpop Hcheck Hcached Hmc Hic stale.
  rewrite process_frame_eq, Hk.
  set (this1 := (add_frameset (as_frameset f) k this).2) in *.
  assert (Hcached1 : _depth_merged_frame this1 = Some cached).
  { unfold this1. by rewrite add_frameset_eq. }
  rewrite pop_framesets_eq in Hpop.
  case_bool_decide as Hfull; [|done]. injection Hpop as <- <- <-.
  rewrite finish_pair by done.
  rewrite (merge_or_discard_not_mergeable _ _ _ _ u) by done.
  rewrite (discard_with_cache f input cached mc ic) by done.
  fold stale. case_bool_decide as Hstale; simpl; unfold latest_or; simpl.
  - split_and!; [done | done | done].
  - rewrite Hcached1. simpl. split_and!; [|done|done].
    split; [done | by intros ?].
Qed.

(** ** Allocation failure *)

Lemma merging_algorithm_allocation_failure
    (source : frame_source) (first : frameset) (second : option frameset)
    (d0 : video_frame) (use_ir : bool) :
  allocation_succeeds source = false →
  depth_stream first = Some d0 →
  merging_algorithm source (Some first) second use_ir
  = Ok (Some (composite first)).
Proof.
  intros Halloc Hd0. unfold merging_algorithm, allocate_video_frame. simpl.
  by rewrite Hd0, Halloc.
Qed.

(** On a mergeable pair for which the allocation fails, the first
    bundle of the pair becomes the cached merge result and is what the
    invocation returns. *)
Lemma process_frame_allocation_failure
    (source : frame_source) (f : option frame_object) (this : hdr_merge) (k : Z)
    (first : frameset) (d0 : video_frame) (fs_1 : option frameset)
    (this' : hdr_merge) (u : bool) :
  get_frame_metadata (get_depth_frame (as_frameset f))
    RS2_FRAME_METADATA_SUBPRESET_SEQUENCE_ID = Ok k →
  pop_framesets (add_frameset (as_frameset f) k this).2
    = (Ok (Some (Some first, fs_1)), this') →
  check_frames_mergeability (Some first) fs_1 false = Ok (true, u) →
  depth_stream first = Some d0 →
  allocation_succeeds source = false →
  process_frame source f this
  = (Ok (Some (composite first)),
     {| _framesets := ∅; _depth_merged_frame := Some (composite first) |}).
Proof.
  intros Hk Hpop Hcheck Hd0 Halloc. rewrite process_frame_eq, Hk.
  set (this1 := (add_frameset (as_frameset f) k this).2) in *.
  rewrite pop_framesets_eq in Hpop.
  case_bool_decide as Hfull; [|done]. injection Hpop as H0 H1 <-.
  rewrite finish_pair by done. rewrite H0, H1.
  rewrite (merge_or_discard_mergeable _ _ _ _ u (composite first)); [done|done|].
  by apply (merging_algorithm_allocation_failure _ _ _ d0).
Qed.

(** * Further properties of the block *)

(** ** The infrared eligibility check on complete bundles *)

Lemma static_cast_int_eq_iff (x y : Z) :
  static_cast_int x = static_cast_int y ↔ (x - y) mod 2 ^ 32 = 0.
Proof.
  unfold static_cast_int. split.
  - intros Heq.
    assert (Hmod : (x + 2 ^ 31) mod 2 ^ 32 = (y + 2 ^ 31) mod 2 ^ 32) by lia.
    replace (x - y) with ((x + 2 ^ 31) - (y + 2 ^ 31)) by lia.
    by rewrite Zminus_mod, Hmod, Z.sub_diag.
  - intros Hdiv.
    pose proof (Z.div_mod (x - y) (2 ^ 32)) as Hq.
    replace (x + 2 ^ 31) with ((y + 2 ^ 31) + ((x - y) / 2 ^ 32) * 2 ^ 32) by lia.
    by rewrite Z_mod_plus_full.
Qed.

(** X1.  When both bundles have an infrared channel and the four
    channels carry frame counter and sequence id, the check returns
    without raising, and it returns true exactly when the first depth,
    the first infrared and the second infrared channel have one size,
    each depth counter differs from its infrared counter by a multiple
    of 2^32 (they are compared after the cast to int), and the sequence
    ids agree.  The size of the second depth channel plays no part. *)
Theorem infrared_eligibility_decided
    (d0 i0 d1 i1 : video_frame) (c0 ci0 c1 ci1 s0 si0 s1 si1 : Z) :
  frame_counter (video_info d0) = Some c0 →
  frame_counter (video_info i0) = Some ci0 →
  frame_counter (video_info d1) = Some c1 →
  frame_counter (video_info i1) = Some ci1 →
  subpreset_sequence_id (video_info d0) = Some s0 →
  subpreset_sequence_id (video_info i0) = Some si0 →
  subpreset_sequence_id (video_info d1) = Some s1 →
  subpreset_sequence_id (video_info i1) = Some si1 →
  ∃ b : bool,
    should_ir_be_used_for_merging (Some d0) (Some i0) (Some d1) (Some i1) = Ok b
    ∧ (b = true
       ↔ (height d0 = height i0 ∧ width d0 = width i0
          ∧ height i1 = height i0 ∧ width i1 = width i0)
         ∧ (c0 - ci0) mod 2 ^ 32 = 0
         ∧ (c1 - ci1) mod 2 ^ 32 = 0
         ∧ s0 = si0 ∧ s1 = si1).
Proof.
  intros Hc0 Hci0 Hc1 Hci1 Hs0 Hsi0 Hs1 Hsi1.
  rewrite (should_ir_be_used_for_merging_present d0 i0 d1 i1
             c0 ci0 c1 ci1 s0 si0 s1 si1) by done.
  eexists. split; [done|].
  by rewrite bool_decide_eq_true, !static_cast_int_eq_iff.
Qed.

(** ** Error behaviour of the pair validator *)

(** X2.  The validator raises when it cannot read the two depth frame
    counters, the first bundle being looked at before the second: a
    null first bundle or one without depth channel raises on the null
    handle, a first depth channel without frame counter raises on the
    missing field, and only then the same two failures are reported
    for the second bundle. *)
Theorem check_frames_mergeability_unreadable_counter
    (first_fs second_fs : option frameset) (use_ir : bool) :
  (get_depth_frame first_fs = None →
   check_frames_mergeability first_fs second_fs use_ir = Raise null_handle)
  ∧ (∀ d0, get_depth_frame first_fs = Some d0 →
       frame_counter (video_info d0) = None →
       check_frames_mergeability first_fs second_fs use_ir
       = Raise metadata_not_supported)
  ∧ (∀ d0 c0, get_depth_frame first_fs = Some d0 →
       frame_counter (video_info d0) = Some c0 →
       get_depth_frame second_fs = None →
       check_frames_mergeability first_fs second_fs use_ir = Raise null_handle)
  ∧ (∀ d0 c0 d1, get_depth_frame first_fs = Some d0 →
       frame_counter (video_info d0) = Some c0 →
       get_depth_frame second_fs = Some d1 →
       frame_counter (video_info d1) = None →
       check_frames_mergeability first_fs second_fs use_ir
       = Raise metadata_not_supported).
Proof.
  unfold check_frames_mergeability. split_and!.
  - by intros ->.
  - intros d0 -> Hc0. simpl. unfold read_metadata. simpl. by rewrite Hc0.
  - intros d0 c0 -> Hc0 ->. simpl. unfold read_metadata. simpl. by rewrite Hc0.
  - intros d0 c0 d1 -> Hc0 -> Hc1. simpl. unfold read_metadata. simpl.
    by rewrite Hc0, Hc1.
Qed.

(** X3.  A counter gap or a depth size mismatch is reported as
    not-mergeable before the infrared channels are looked at: the
    verdict is the same whatever the two bundles carry as infrared,
    nothing included, and [use_ir] is handed back as it came. *)
Theorem check_frames_mergeability_rejects_before_infrared
    (first second : frameset) (d0 d1 : video_frame) (c0 c1 : Z) (use_ir : bool) :
  depth_stream first = Some d0 →
  depth_stream second = Some d1 →
  frame_counter (video_info d0) = Some c0 →
  frame_counter (video_info d1) = Some c1 →
  c0 + 1 ≠ c1 ∨ width d0 ≠ width d1 ∨ height d0 ≠ height d1 →
  check_frames_mergeability (Some first) (Some second) use_ir = Ok (false, use_ir)
  ∧ check_frames_mergeability (Some (depth_only first)) (Some (depth_only second)) use_ir
    = Ok (false, use_ir).
Proof.
  intros Hd0 Hd1 Hc0 Hc1 Hbad. split.
  - rewrite (check_frames_mergeability_unfold _ _ d0 d1 c0 c1) by done.
    rewrite bool_decide_false; [done | tauto].
  - rewrite (check_frames_mergeability_unfold _ _ d0 d1 c0 c1) by done.
    rewrite bool_decide_false; [done | tauto].
Qed.

(** ** More on the merged image *)

Lemma memset_zero_replicate (n : nat) (x : Z) :
  memset_zero (replicate n x) n = replicate n 0.
Proof.
  unfold memset_zero.
  rewrite length_replicate, Nat.min_id, drop_replicate, Nat.sub_diag.
  apply app_nil_r.
Qed.

(** The depth-only merge, pixel by pixel, in terms of
    [select_depth_only]. *)
Lemma merging_algorithm_depth_only_run
    (source : frame_source) (first second : frameset) (d0 d1 : video_frame) :
  let count := Z.to_nat (width d0 * height d0) in
  allocation_succeeds source = true →
  depth_stream first = Some d0 →
  depth_stream second = Some d1 →
  (count ≤ length (pixels d0))%nat →
  (count ≤ length (pixels d1))%nat →
  ∃ merged,
    merging_algorithm source (Some first) (Some second) false
      = Ok (Some (plain merged))
    ∧ length (pixels merged) = count
    ∧ ∀ i x y, (i < count)%nat →
        pixels d0 !! i = Some x → pixels d1 !! i = Some y →
        pixels merged !! i = Some (select_depth_only x y).
Proof.
  intros count Halloc Hd0 Hd1 Hlen0 Hlen1.
  destruct (for_each_pixel_writes
              (pixel_depth_only (pixels d0) (pixels d1))
              (λ j, select_depth_only (default 0 (pixels d0 !! j))
                                      (default 0 (pixels d1 !! j)))
              count 0%nat (replicate count 0))
    as (out & Hrun & Hlen & Hnew & _).
  - intros j Hj.
    destruct (read_in_range (pixels d0) j) as (x & Hx & _); [lia|].
    destruct (read_in_range (pixels d1) j) as (y & Hy & _); [lia|].
    rewrite Hx, Hy. by apply pixel_depth_only_Ok.
  - rewrite length_replicate. lia.
  - eexists. split_and!.
    + unfold merging_algorithm, allocate_video_frame. simpl.
      rewrite Hd0, Hd1, Halloc. simpl. fold count.
      rewrite memset_zero_replicate, Hrun. done.
    + simpl. by rewrite Hlen, length_replicate.
    + intros i x y Hi Hx Hy. simpl. rewrite Hnew by lia. by rewrite Hx, Hy.
Qed.

(** The infrared-gated merge, pixel by pixel, in terms of
    [select_with_ir]. *)
Lemma merging_algorithm_with_ir_run
    (source : frame_source) (first second : frameset)
    (d0 d1 ir0 ir1 : video_frame) :
  let count := Z.to_nat (width d0 * height d0) in
  allocation_succeeds source = true →
  depth_stream first = Some d0 →
  depth_stream second = Some d1 →
  infrared_stream first = Some ir0 →
  infrared_stream second = Some ir1 →
  (count ≤ length (pixels d0))%nat →
  (count ≤ length (pixels d1))%nat →
  (count ≤ length (pixels ir0))%nat →
  (count ≤ length (pixels ir1))%nat →
  ∃ merged,
    merging_algorithm source (Some first) (Some second) true
      = Ok (Some (plain merged))
    ∧ length (pixels merged) = count
    ∧ ∀ i a b x y, (i < count)%nat →
        pixels ir0 !! i = Some a → pixels ir1 !! i = Some b →
        pixels d0 !! i = Some x → pixels d1 !! i = Some y →
        pixels merged !! i = Some (select_with_ir a b x y).
Proof.
  intros count Halloc Hd0 Hd1 Hir0 Hir1 Hlen0 Hlen1 Hlen2 Hlen3.
  destruct (for_each_pixel_writes
              (pixel_with_ir (pixels ir0) (pixels ir1) (pixels d0) (pixels d1))
              (λ j, select_with_ir (default 0 (pixels ir0 !! j))
                                   (default 0 (pixels ir1 !! j))
                                   (default 0 (pixels d0 !! j))
                                   (default 0 (pixels d1 !! j)))
              count 0%nat (replicate count 0))
    as (out & Hrun & Hlen & Hnew & _).
  - intros j Hj.
    destruct (read_in_range (pixels ir0) j) as (a & Ha & _); [lia|].
    destruct (read_in_range (pixels ir1) j) as (b & Hb & _); [lia|].
    destruct (read_in_range (pixels d0) j) as (x & Hx & _); [lia|].
    destruct (read_in_range (pixels d1) j) as (y & Hy & _); [lia|].
    rewrite Ha, Hb, Hx, Hy. by apply pixel_with_ir_Ok.
  - rewrite length_replicate. lia.
  - eexists. split_and!.
    + unfold merging_algorithm, allocate_video_frame. simpl.
      rewrite Hd0, Hd1, Hir0, Hir1, Halloc. simpl. fold count.
      rewrite memset_zero_replicate, Hrun. done.
    + simpl. by rewrite Hlen, length_replicate.
    + intros i a b x y Hi Ha Hb Hx Hy. simpl. rewrite Hnew by lia.
      by rewrite Ha, Hb, Hx, Hy.
Qed.

Lemma select_depth_only_zero (x y : Z) :
  select_depth_only x y = 0 ↔ x = 0 ∧ y = 0.
Proof.
  unfold select_depth_only.
  destruct (Z.eqb_spec x 0), (Z.eqb_spec y 0); simpl; lia.
Qed.

Lemma select_depth_only_same (x : Z) : select_depth_only x x = x.
Proof. unfold select_depth_only. by destruct (Z.eqb_spec x 0). Qed.

Lemma select_with_ir_cases (a b x y : Z) :
  select_with_ir a b x y = 0
  ∨ (select_with_ir a b x y = x ∧ is_infrared_valid a = true ∧ x ≠ 0)
  ∨ (select_with_ir a b x y = y ∧ is_infrared_valid b = true ∧ y ≠ 0).
Proof.
  unfold select_with_ir.
  destruct (is_infrared_valid a), (Z.eqb_spec x 0); simpl; try tauto;
    destruct (is_infrared_valid b), (Z.eqb_spec y 0); simpl; tauto.
Qed.

Lemma select_with_ir_both_valid (a b x y : Z) :
  is_infrared_valid a = true → is_infrared_valid b = true →
  select_with_ir a b x y = select_depth_only x y.
Proof. unfold select_with_ir, select_depth_only. by intros -> ->. Qed.

(** X5.  The depth-only merge fills holes and makes none: a merged
    pixel is 0 exactly when both source pixels are 0. *)
Theorem depth_only_merge_hole_iff
    (source : frame_source) (first second : frameset) (d0 d1 : video_frame) :
  let count := Z.to_nat (width d0 * height d0) in
  allocation_succeeds source = true →
  depth_stream first = Some d0 →
  depth_stream second = Some d1 →
  (count ≤ length (pixels d0))%nat →
  (count ≤ length (pixels d1))%nat →
  ∃ merged,
    merging_algorithm source (Some first) (Some second) false
      = Ok (Some (plain merged))
    ∧ ∀ i x y, (i < count)%nat →
        pixels d0 !! i = Some x → pixels d1 !! i = Some y →
        (pixels merged !! i = Some 0 ↔ x = 0 ∧ y = 0).
Proof.
  intros count Halloc Hd0 Hd1 Hlen0 Hlen1.
  destruct (merging_algorithm_depth_only_run source first second d0 d1)
    as (merged & Hrun & _ & Hpx); [done..|].
  exists merged. split; [done|]. intros i x y Hi Hx Hy.
  rewrite (Hpx i x y) by done. rewrite <- select_depth_only_zero.
  split; [by intros [= ->] | by intros ->].
Qed.

(** X6.  Merging a bundle with itself, depth only, gives its own depth
    image back: the merged buffer is the first width*height words of
    the source buffer. *)
Theorem depth_only_merge_idempotent
    (source : frame_source) (first : frameset) (d0 : video_frame) :
  let count := Z.to_nat (width d0 * height d0) in
  allocation_succeeds source = true →
  depth_stream first = Some d0 →
  (count ≤ length (pixels d0))%nat →
  ∃ merged,
    merging_algorithm source (Some first) (Some first) false
      = Ok (Some (plain merged))
    ∧ pixels merged = take count (pixels d0).
Proof.
  intros count Halloc Hd0 Hlen0.
  destruct (merging_algorithm_depth_only_run source first first d0 d0)
    as (merged & Hrun & Hlen & Hpx); [done..|].
  exists merged. split; [done|]. apply list_eq. intros i.
  destruct (decide (i < count)%nat) as [Hi|Hi].
  - destruct (read_in_range (pixels d0) i) as (x & Hx & _); [lia|].
    rewrite (Hpx i x x) by done. rewrite select_depth_only_same.
    by rewrite lookup_take_lt.
  - rewrite lookup_ge_None_2 by lia.
    symmetry. apply lookup_ge_None_2. rewrite length_take. lia.
Qed.

(** X7.  Using infrared only ever removes pixels.  On one pair, every
    pixel of the infrared-gated merge is 0 or the first or the second
    depth word at that index, taken only under a valid infrared byte;
    where it is not 0 the depth-only merge is not 0 either; and where
    both infrared bytes are valid the two merges agree. *)
Theorem infrared_merge_within_depth_only_merge
    (source : frame_source) (first second : frameset)
    (d0 d1 ir0 ir1 : video_frame) :
  let count := Z.to_nat (width d0 * height d0) in
  allocation_succeeds source = true →
  depth_stream first = Some d0 →
  depth_stream second = Some d1 →
  infrared_stream first = Some ir0 →
  infrared_stream second = Some ir1 →
  (count ≤ length (pixels d0))%nat →
  (count ≤ length (pixels d1))%nat →
  (count ≤ length (pixels ir0))%nat →
  (count ≤ length (pixels ir1))%nat →
  ∃ gated plain_merge,
    merging_algorithm source (Some first) (Some second) true
      = Ok (Some (plain gated))
    ∧ merging_algorithm source (Some first) (Some second) false
      = Ok (Some (plain plain_merge))
    ∧ ∀ i a b x y, (i < count)%nat →
        pixels ir0 !! i = Some a → pixels ir1 !! i = Some b →
        pixels d0 !! i = Some x → pixels d1 !! i = Some y →
        ∃ v w,
          pixels gated !! i = Some v
          ∧ pixels plain_merge !! i = Some w
          ∧ (v = 0
             ∨ (v = x ∧ is_infrared_valid a = true ∧ x ≠ 0)
             ∨ (v = y ∧ is_infrared_valid b = true ∧ y ≠ 0))
          ∧ (v ≠ 0 → w ≠ 0)
          ∧ (is_infrared_valid a = true → is_infrared_valid b = true → v = w).
Proof.
  intros count Halloc Hd0 Hd1 Hir0 Hir1 Hlen0 Hlen1 Hlen2 Hlen3.
  destruct (merging_algorithm_with_ir_run source first second d0 d1 ir0 ir1)
    as (gated & Hrun1 & _ & Hpx1); [done..|].
  destruct (merging_algorithm_depth_only_run source first second d0 d1)
    as (plain_merge & Hrun0 & _ & Hpx0); [done..|].
  exists gated, plain_merge. split_and!; [done..|].
  intros i a b x y Hi Ha Hb Hx Hy.
  exists (select_with_ir a b x y), (select_depth_only x y).
  split_and!.
  - by apply Hpx1.
  - by apply Hpx0.
  - apply select_with_ir_cases.
  - intros Hv Hw. apply select_depth_only_zero in Hw as [-> ->].
    destruct (select_with_ir_cases a b 0 0) as [?|[(_ & _ & ?)|(_ & _ & ?)]]; done.
  - apply select_with_ir_both_valid.
Qed.

(** ** The staleness guard on its own *)

Lemma discard_outcome f this r this' :
  discard_depth_merged_frame_if_needed f this = (r, this') →
  this' = this
  ∨ (r = Ok tt
     ∧ is_Some (_depth_merged_frame this)
     ∧ this' = {| _framesets := _framesets this; _depth_merged_frame := None |}).
Proof.
  unfold discard_depth_merged_frame_if_needed, mbind, action_bind,
    get_depth_merged_frame, lift. simpl.
  case_bool_decide as Hcached; simpl; [|intros [= <- <-]; by left].
  destruct (frame_get_frame_metadata (_depth_merged_frame this) _); simpl;
    [|intros [= <- <-]; by left].
  destruct (frame_get_frame_metadata f _); simpl; [|intros [= <- <-]; by left].
  destruct (get_profile (_depth_merged_frame this)); simpl;
    [|intros [= <- <-]; by left].
  destruct (get_profile f); simpl; [|intros [= <- <-]; by left].
  destruct (_ || _); intros [= <- <-]; [by right | by left].
Qed.

(** X8.  The staleness guard can only clear the cache: it never touches
    the sequence buffer and never installs a frame; it leaves the state
    as it is or, returning normally, replaces a cached frame by null.
    Without a cached frame it does nothing and does not even look at
    its argument, which may be null; with a cached frame that carries a
    counter, a null argument makes it raise, the cache kept. *)
Theorem discard_only_clears (f : option frame_object) (this : hdr_merge) :
  let outcome := discard_depth_merged_frame_if_needed f this in
  _framesets outcome.2 = _framesets this
  ∧ (outcome.2 = this
     ∨ (outcome.1 = Ok tt
        ∧ is_Some (_depth_merged_frame this)
        ∧ _depth_merged_frame outcome.2 = None))
  ∧ (_depth_merged_frame this = None → outcome = (Ok tt, this))
  ∧ (∀ cached mc,
       _depth_merged_frame this = Some cached →
       frame_counter (info_of cached) = Some mc →
       f = None →
       outcome = (Raise null_handle, this)).
Proof.
  intros outcome. split_and!.
  - apply discard_keeps_framesets.
  - destruct (discard_outcome f this outcome.1 outcome.2) as [?|(? & ? & Hs)];
      [apply surjective_pairing | by left | right].
    split_and!; [done..|]. by rewrite Hs.
  - apply discard_without_cache.
  - intros cached mc Hc Hmc ->. unfold outcome,
      discard_depth_merged_frame_if_needed, mbind, action_bind,
      get_depth_merged_frame, lift. simpl. rewrite Hc. simpl.
    unfold read_metadata. simpl. by rewrite Hmc.
Qed.

(** ** Outcomes of one invocation *)

Lemma merge_or_discard_raise source f fs_0 fs_1 this e this' :
  merge_or_discard source f fs_0 fs_1 this = (Raise e, this') → this' = this.
Proof.
  unfold merge_or_discard, mbind at 1, action_bind, lift. simpl.
  destruct (check_frames_mergeability fs_0 fs_1 false) as [[[|] u]|e0]; simpl.
  - unfold mbind, action_bind. simpl.
    destruct (merging_algorithm source fs_0 fs_1 u) as [new_frame|e1]; simpl.
    + by case_bool_decide.
    + by intros [= _ <-].
  - intros Hd. by destruct (discard_outcome _ _ _ _ Hd) as [?|(? & _)].
  - by intros [= _ <-].
Qed.

Lemma process_frame_Ok source f this out this' :
  process_frame source f this = (Ok out, this') →
  out = latest_or f this' ∧ ∃ s, f = Some (composite s).
Proof.
  rewrite process_frame_eq.
  destruct (get_frame_metadata _ _) as [k|e] eqn:Hk; [|done].
  destruct (sequence_id_read f k Hk) as (s & d & Hf & _).
  set (this1 := (add_frameset (as_frameset f) k this).2).
  destruct (decide (2 ≤ size (_framesets this1))%nat) as [Hfull|Hpart].
  - rewrite finish_pair by done.
    destruct (merge_or_discard _ _ _ _ _) as [[[]|e] this2]; [|done].
    intros [= <- <-]. split; [done | by exists s].
  - rewrite finish_incomplete by lia. intros [= <- <-]. split; [done | by exists s].
Qed.

(** X9.  An invocation that returns never returns a null frame: its
    input was a frameset, and what it returns is the cached frame the
    call leaves behind when there is one, and the input itself
    otherwise. *)
Theorem process_frame_returns_cache_or_input
    (source : frame_source) (f : option frame_object) (this : hdr_merge)
    (out : option frame_object) (this' : hdr_merge) :
  process_frame source f this = (Ok out, this') →
  is_Some out
  ∧ (∃ s, f = Some (composite s))
  ∧ (∀ cached, _depth_merged_frame this' = Some cached → out = Some cached)
  ∧ (_depth_merged_frame this' = None → out = f).
Proof.
  intros Hrun. destruct (process_frame_Ok _ _ _ _ _ Hrun) as (-> & s & ->).
  unfold latest_or. split_and!.
  - case_bool_decide as Hc; [done | by eexists].
  - by exists s.
  - intros cached Hc. rewrite Hc. by rewrite bool_decide_true.
  - intros Hc. rewrite Hc. by rewrite bool_decide_false by (by intros []).
Qed.

(** X10.  An input whose depth sequence id cannot be read makes the
    invocation raise before anything is changed: a null frame, a frame
    that is no frameset and a frameset without depth channel raise on
    the null handle, a depth channel without sequence id raises on the
    missing field, and the state is the one before the call. *)
Theorem process_frame_unreadable_input
    (source : frame_source) (this : hdr_merge) :
  process_frame source None this = (Raise null_handle, this)
  ∧ (∀ v, process_frame source (Some (plain v)) this = (Raise null_handle, this))
  ∧ (∀ s, depth_stream s = None →
       process_frame source (Some (composite s)) this = (Raise null_handle, this))
  ∧ (∀ s d, depth_stream s = Some d →
       subpreset_sequence_id (video_info d) = None →
       process_frame source (Some (composite s)) this
       = (Raise metadata_not_supported, this)).
Proof.
  split_and!.
  - by rewrite process_frame_eq.
  - intros v. by rewrite process_frame_eq.
  - intros s Hd. rewrite process_frame_eq. simpl. by rewrite Hd.
  - intros s d Hd Hid. rewrite process_frame_eq. simpl. rewrite Hd. simpl.
    unfold read_metadata. simpl. by rewrite Hid.
Qed.

Lemma process_frame_raise source f this e this' :
  process_frame source f this = (Raise e, this') →
  (get_frame_metadata (get_depth_frame (as_frameset f))
     RS2_FRAME_METADATA_SUBPRESET_SEQUENCE_ID = Raise e ∧ this' = this)
  ∨ ((∃ k, get_frame_metadata (get_depth_frame (as_frameset f))
             RS2_FRAME_METADATA_SUBPRESET_SEQUENCE_ID = Ok k)
     ∧ _depth_merged_frame this' = _depth_merged_frame this
     ∧ _framesets this' = ∅
     ∧ _framesets this ≠ ∅).
Proof.
  rewrite process_frame_eq.
  destruct (get_frame_metadata _ _) as [k|e0] eqn:Hk.
  2: { intros [= <- <-]. by left. }
  pose proof (add_frameset_eq (as_frameset f) k this) as Hadd.
  set (this1 := (add_frameset (as_frameset f) k this).2) in *.
  destruct (decide (2 ≤ size (_framesets this1))%nat) as [Hfull|Hpart].
  - rewrite finish_pair by done.
    destruct (merge_or_discard _ _ _ _ _) as [[[]|e1] this2] eqn:Hm; [done|].
    apply merge_or_discard_raise in Hm as ->. intros [= _ <-]. simpl.
    unfold this1 in *. rewrite Hadd in *. simpl in *.
    right. split_and!; [by exists k|done|done|].
    intros Hempty. rewrite Hempty in Hfull. case_bool_decide.
    + rewrite insert_empty, map_size_singleton in Hfull. lia.
    + rewrite map_size_empty in Hfull. lia.
  - rewrite finish_incomplete by lia. done.
Qed.

(** X11.  A raise never corrupts the cache.  If an invocation raises,
    the cached frame is the one before the call, and the sequence
    buffer is either untouched (the raise came from reading the input)
    or was occupied and is now empty (the raise came after a pair was
    popped). *)
Theorem process_frame_raise_keeps_cache
    (source : frame_source) (f : option frame_object) (this : hdr_merge)
    (e : failure) (this' : hdr_merge) :
  process_frame source f this = (Raise e, this') →
  _depth_merged_frame this' = _depth_merged_frame this
  ∧ (this' = this ∨ (_framesets this' = ∅ ∧ _framesets this ≠ ∅)).
Proof.
  intros Hrun.
  destruct (process_frame_raise _ _ _ _ _ Hrun) as [[_ ->]|(_ & Hc & Hb & Hne)].
  - split; [done | by left].
  - split; [done | by right].
Qed.

(** X12.  An admitted frame can make the invocation raise only after a
    pair was popped: if [should_process] accepts the frame and the call
    raises, the buffer was occupied before the call and is empty after
    it.  On an empty buffer an admitted frame is always processed
    normally. *)
Theorem admitted_frame_raises_only_after_pop
    (source : frame_source) (f : option frame_object) (this : hdr_merge) :
  should_process f = true →
  (∀ e this', process_frame source f this = (Raise e, this') →
     _framesets this ≠ ∅ ∧ _framesets this' = ∅)
  ∧ (_framesets this = ∅ → ∃ out this', process_frame source f this = (Ok out, this')).
Proof.
  intros Hadm.
  assert (Hk : ∃ k, get_frame_metadata (get_depth_frame (as_frameset f))
                      RS2_FRAME_METADATA_SUBPRESET_SEQUENCE_ID = Ok k).
  { destruct f as [[v|s]|]; simpl in *; try done.
    destruct (depth_stream s) as [d|]; simpl in *; [|done].
    unfold supports_frame_metadata, read_metadata in *. simpl in *.
    destruct (subpreset_sequence_size (video_info d)); simpl in *; [|done].
    destruct (subpreset_sequence_id (video_info d)) as [k|]; simpl in *; [|done].
    by exists k. }
  destruct Hk as [k Hk].
  assert (Hraise : ∀ e this', process_frame source f this = (Raise e, this') →
                     _framesets this ≠ ∅ ∧ _framesets this' = ∅).
  { intros e this' Hrun.
    destruct (process_frame_raise _ _ _ _ _ Hrun) as [[Hbad _]|(_ & _ & Hb & Hne)];
      [congruence | done]. }
  split; [done|]. intros Hempty.
  destruct (process_frame source f this) as [[out|e] this'] eqn:Hrun.
  - by exists out, this'.
  - by destruct (Hraise e this' eq_refl) as [Hne _].
Qed.

(** The second half of a pair meets the first one waiting in slot 0. *)
Lemma process_frame_completes_pair
    (source : frame_source) (f : option frame_object) (this : hdr_merge)
    (first : frameset) (u : bool) (new_frame : frame_object) :
  _framesets this = {[0 := Some first]} →
  get_frame_metadata (get_depth_frame (as_frameset f))
    RS2_FRAME_METADATA_SUBPRESET_SEQUENCE_ID = Ok 1 →
  check_frames_mergeability (Some first) (as_frameset f) false = Ok (true, u) →
  merging_algorithm source (Some first) (as_frameset f) u = Ok (Some new_frame) →
  process_frame source f this
  = (Ok (Some new_frame),
     {| _framesets := ∅; _depth_merged_frame := Some new_frame |}).
Proof.
  intros Hbuf Hk Hcheck Hmerge. rewrite process_frame_eq, Hk.
  pose proof (add_frameset_eq (as_frameset f) 1 this) as Hadd.
  set (this1 := (add_frameset (as_frameset f) 1 this).2) in *.
  rewrite Hbuf, map_size_singleton in Hadd.
  rewrite bool_decide_true in Hadd by done.
  assert (Hbuf1 : _framesets this1 = <[1 := as_frameset f]> {[0 := Some first]}).
  { unfold this1. by rewrite Hadd. }
  assert (Hfull : (2 ≤ size (_framesets this1))%nat).
  { rewrite Hbuf1, map_size_insert_None, map_size_singleton
      by (by rewrite lookup_singleton_ne). lia. }
  rewrite finish_pair by done. rewrite Hbuf1.
  rewrite lookup_insert_ne, lookup_singleton_eq, lookup_insert_eq by done. simpl.
  by rewrite (merge_or_discard_mergeable _ _ _ _ u new_frame).
Qed.

(** X13.  Two invocations make a merge, the earlier bundle as basis.
    From any state with an empty buffer, a bundle A of sequence id 0
    followed by a bundle B of sequence id 1 that the validator accepts
    with A first, and for which the merge of (A, B) produces a frame:
    the first call stores A in slot 0 and leaves the cache alone; the
    second call returns the merged frame, caches it in place of
    whatever was cached, and leaves the buffer empty. *)
Theorem pair_merged_in_two_calls
    (source_a source_b : frame_source) (a b : frameset) (da db : video_frame)
    (this : hdr_merge) (u : bool) (new_frame : frame_object) :
  _framesets this = ∅ →
  depth_stream a = Some da →
  subpreset_sequence_id (video_info da) = Some 0 →
  depth_stream b = Some db →
  subpreset_sequence_id (video_info db) = Some 1 →
  check_frames_mergeability (Some a) (Some b) false = Ok (true, u) →
  merging_algorithm source_b (Some a) (Some b) u = Ok (Some new_frame) →
  let after_a := process_frame source_a (Some (composite a)) this in
  after_a
  = (Ok (latest_or (Some (composite a)) this),
     {| _framesets := {[0 := Some a]};
        _depth_merged_frame := _depth_merged_frame this |})
  ∧ process_frame source_b (Some (composite b)) after_a.2
    = (Ok (Some new_frame),
       {| _framesets := ∅; _depth_merged_frame := Some new_frame |}).
Proof.
  intros Hempty Hda Hida Hdb Hidb Hcheck Hmerge after_a.
  assert (Ha : after_a
               = (Ok (latest_or (Some (composite a)) this),
                  {| _framesets := {[0 := Some a]};
                     _depth_merged_frame := _depth_merged_frame this |})).
  { unfold after_a. rewrite process_frame_eq. simpl. rewrite Hda. simpl.
    unfold read_metadata. simpl. rewrite Hida.
    rewrite add_frameset_eq, Hempty, map_size_empty.
    rewrite (bool_decide_true (Z.of_nat 0 = 0)) by done.
    rewrite insert_empty. cbn [snd].
    rewrite finish_incomplete by (simpl; rewrite map_size_singleton; lia).
    done. }
  split; [done|]. rewrite Ha. simpl.
  apply (process_frame_completes_pair _ _ _ a u); [done| |done|done].
  simpl. rewrite Hdb. simpl. unfold read_metadata. simpl. by rewrite Hidb.
Qed.

(** X14.  Between pairs nothing happens to the cache.  In a state
    reached by any sequence of invocations, an input whose sequence id
    is not 1, or that meets an empty buffer, makes the invocation
    return normally, with the cached frame if there is one and the
    input otherwise; the cached frame is kept as it is; and the buffer
    changes only when it was empty and the id is 0, the input then
    occupying slot 0. *)
Theorem process_frame_between_pairs
    (calls : list (frame_source * option frame_object))
    (source : frame_source) (f : option frame_object) (k : Z) :
  get_frame_metadata (get_depth_frame (as_frameset f))
    RS2_FRAME_METADATA_SUBPRESET_SEQUENCE_ID = Ok k →
  let this := run calls in
  k ≠ 1 ∨ _framesets this = ∅ →
  (process_frame source f this).1 = Ok (latest_or f this)
  ∧ _depth_merged_frame (process_frame source f this).2 = _depth_merged_frame this
  ∧ (_framesets this = ∅ → k = 0 →
     _framesets (process_frame source f this).2 = {[0 := as_frameset f]})
  ∧ (_framesets this ≠ ∅ ∨ k ≠ 0 →
     _framesets (process_frame source f this).2 = _framesets this).
Proof.
  intros Hk this Hcase.
  pose proof (run_between_invocations calls) as Hm. fold this in Hm.
  pose proof (add_frameset_eq (as_frameset f) k this) as Hadd.
  rewrite process_frame_eq, Hk.
  set (this1 := (add_frameset (as_frameset f) k this).2) in *.
  assert (Hsz : (size (_framesets this1) < 2)%nat
                ∧ (_framesets this = ∅ → k = 0 →
                   _framesets this1 = {[0 := as_frameset f]})
                ∧ (_framesets this ≠ ∅ ∨ k ≠ 0 → _framesets this1 = _framesets this)).
  { unfold this1. rewrite Hadd. simpl.
    destruct Hm as [Hm|(s0 & d0 & Hm & _)]; rewrite Hm.
    - rewrite map_size_empty. destruct (decide (Z.of_nat 0 = k)) as [Hz|Hz].
      + rewrite (bool_decide_true _ Hz), insert_empty, map_size_singleton.
        subst k. split_and!; [lia | done | intros [?|?]; done].
      + rewrite (bool_decide_false _ Hz), map_size_empty.
        split_and!; [lia | intros _ ->; done | done].
    - rewrite map_size_singleton. destruct Hcase as [Hk1|Hempty].
      + rewrite bool_decide_false by (simpl; lia). rewrite map_size_singleton.
        split_and!; [lia | | done].
        intros Hempty. apply (f_equal size) in Hempty.
        by rewrite map_size_singleton, map_size_empty in Hempty.
      + rewrite Hm in Hempty. apply (f_equal size) in Hempty.
        by rewrite map_size_singleton, map_size_empty in Hempty. }
  destruct Hsz as (Hsz & Hins & Hsame).
  rewrite finish_incomplete by done. simpl.
  assert (Hcache : _depth_merged_frame this1 = _depth_merged_frame this).
  { unfold this1. by rewrite Hadd. }
  split_and!; [|done..].
  unfold latest_or. by rewrite Hcache.
Qed.

(** ** Failure modes of merge and eligibility check *)

(** X15.  How the merge fails.  Without a first depth frame it raises
    before allocating.  When the allocation fails it returns the first
    bundle and looks at nothing else, so it returns even if the second
    bundle is null or infrared was asked for and is missing.  When the
    allocation succeeds it raises on a missing second depth frame, and,
    asked to use infrared, on a missing first infrared frame. *)
Theorem merging_algorithm_failure_modes
    (source : frame_source) (first : frameset) (d0 : video_frame) :
  depth_stream first = Some d0 →
  (∀ second_fs use_ir,
     merging_algorithm source None second_fs use_ir = Raise null_handle)
  ∧ (∀ second_fs use_ir,
       allocation_succeeds source = false →
       merging_algorithm source (Some first) second_fs use_ir
       = Ok (Some (composite first)))
  ∧ (∀ second_fs use_ir,
       allocation_succeeds source = true →
       get_depth_frame second_fs = None →
       merging_algorithm source (Some first) second_fs use_ir = Raise null_handle)
  ∧ (∀ second d1,
       allocation_succeeds source = true →
       depth_stream second = Some d1 →
       infrared_stream first = None →
       merging_algorithm source (Some first) (Some second) true
       = Raise null_handle).
Proof.
  intros Hd0. unfold merging_algorithm, allocate_video_frame. split_and!.
  - done.
  - intros second_fs use_ir Halloc. simpl. by rewrite Hd0, Halloc.
  - intros second_fs use_ir Halloc Hd1. simpl. rewrite Hd0, Halloc. simpl.
    by rewrite Hd1.
  - intros second d1 Halloc Hd1 Hir. simpl. rewrite Hd0, Halloc. simpl.
    by rewrite Hd1, Hir.
Qed.

(** X16.  How the eligibility check fails when the first bundle has
    infrared.  If the second infrared frame is missing, the check
    returns false when the first depth and infrared sizes differ (the
    comparison stops there) and raises on the null handle when they
    agree.  If both infrared frames are there and the three sizes
    agree, a first infrared frame without frame counter makes the
    check raise on the missing field. *)
Theorem infrared_eligibility_failure_modes
    (d0 i0 : video_frame) (second_depth : option video_frame) :
  should_ir_be_used_for_merging (Some d0) (Some i0) second_depth None
  = (if bool_decide (height d0 = height i0 ∧ width d0 = width i0)
     then Raise null_handle else Ok false)
  ∧ (∀ i1 c0,
       height d0 = height i0 → width d0 = width i0 →
       height i1 = height i0 → width i1 = width i0 →
       frame_counter (video_info d0) = Some c0 →
       frame_counter (video_info i0) = None →
       should_ir_be_used_for_merging (Some d0) (Some i0) second_depth (Some i1)
       = Raise metadata_not_supported).
Proof.
  split.
  - unfold should_ir_be_used_for_merging. simpl.
    destruct (Z.eqb_spec (height d0) (height i0)) as [Hh|Hh]; simpl.
    + destruct (Z.eqb_spec (width d0) (width i0)) as [Hw|Hw]; simpl.
      * by rewrite bool_decide_true.
      * rewrite bool_decide_false; [done | tauto].
    + rewrite bool_decide_false; [done | tauto].
  - intros i1 c0 Hh Hw Hh1 Hw1 Hc0 Hci0.
    unfold should_ir_be_used_for_merging. simpl.
    rewrite Hh, Hw, Hh1, Hw1, !Z.eqb_refl. simpl.
    unfold read_metadata. simpl. by rewrite Hc0, Hci0.
Qed.
(** ** The pair validator on complete bundles *)

(** X17.  When both bundles have a depth and an infrared channel and
    the four channels carry frame counter and sequence id, the
    validator returns without raising.  Its verdict is mergeable
    exactly when the second depth counter is the first plus one and the
    two depth channels have the same width and height; a not-mergeable
    verdict hands [use_ir] back as it came, and a mergeable one sets it
    to what the infrared eligibility check returns on the four
    channels. *)
Theorem check_frames_mergeability_with_infrared
    (first second : frameset) (d0 d1 ir0 ir1 : video_frame)
    (c0 ci0 c1 ci1 s0 si0 s1 si1 : Z) (use_ir : bool) :
  depth_stream first = Some d0 →
  depth_stream second = Some d1 →
  infrared_stream first = Some ir0 →
  infrared_stream second = Some ir1 →
  frame_counter (video_info d0) = Some c0 →
  frame_counter (video_info ir0) = Some ci0 →
  frame_counter (video_info d1) = Some c1 →
  frame_counter (video_info ir1) = Some ci1 →
  subpreset_sequence_id (video_info d0) = Some s0 →
  subpreset_sequence_id (video_info ir0) = Some si0 →
  subpreset_sequence_id (video_info d1) = Some s1 →
  subpreset_sequence_id (video_info ir1) = Some si1 →
  ∃ mergeable u : bool,
    check_frames_mergeability (Some first) (Some second) use_ir = Ok (mergeable, u)
    ∧ (mergeable = true
       ↔ c1 = c0 + 1 ∧ width d0 = width d1 ∧ height d0 = height d1)
    ∧ (mergeable = false → u = use_ir)
    ∧ (mergeable = true →
       should_ir_be_used_for_merging (Some d0) (Some ir0) (Some d1) (Some ir1)
       = Ok u).
Proof.
  intros Hd0 Hd1 Hir0 Hir1 Hc0 Hci0 Hc1 Hci1 Hs0 Hsi0 Hs1 Hsi1.
  rewrite (check_frames_mergeability_unfold _ _ d0 d1 c0 c1) by done.
  rewrite Hir0, Hir1.
  rewrite (should_ir_be_used_for_merging_present d0 ir0 d1 ir1
             c0 ci0 c1 ci1 s0 si0 s1 si1) by done.
  case_bool_decide as Hok; simpl.
  - eexists true, _. split_and!; [done | | done | done].
    split; [intros _; split_and!; lia || tauto | done].
  - exists false, use_ir. split_and!; [done | | done | done].
    split; [done | intros (-> & ? & ?); exfalso; by apply Hok].
Qed.


End thresholds.

(** * The properties on sample frames *)

(** The test cases of the depth-only and the infrared-gated tie-break,
    with thresholds 5 and 250. *)
Example merging_algorithm_depth_only_example :
  merging_algorithm 5 250 working_source (Some sample_first) (Some sample_second) false
  = Ok (Some (plain {| video_info := sample_info 7 0;
                       width := 2; height := 2;
                       pixels := [5; 7; 0; 5] |})).
Proof. reflexivity. Qed.

Example merging_algorithm_infrared_example :
  merging_algorithm 5 250 working_source (Some sample_first) (Some sample_second) true
  = Ok (Some (plain {| video_info := sample_info 7 0;
                       width := 2; height := 2;
                       pixels := [5; 7; 0; 9] |})).
Proof. reflexivity. Qed.

(** C1 on the sample pair: the merge returns a frame, and its pixel 3
    is the second depth word when infrared is used (the first infrared
    byte, 3, is outside the band) and the first depth word when it is
    not. *)
Lemma merging_algorithm_selects_per_pixel_witness :
  (∃ merged,
     merging_algorithm 5 250 working_source (Some sample_first) (Some sample_second) false
       = Ok (Some (plain merged))
     ∧ pixels merged !! 3%nat = Some 5)
  ∧ (∃ merged,
     merging_algorithm 5 250 working_source (Some sample_first) (Some sample_second) true
       = Ok (Some (plain merged))
     ∧ pixels merged !! 3%nat = Some 9).
Proof.
  destruct (merging_algorithm_selects_per_pixel 5 250 working_source
              sample_first sample_second
              (sample_video 7 0 [5; 0; 0; 5]) (sample_video 8 1 [7; 7; 0; 9]))
    as [(m0 & Hrun0 & _ & Hpx0) Hir];
    [reflexivity | reflexivity | reflexivity | simpl; lia | simpl; lia | ].
  destruct (Hir (sample_video 7 0 [100; 100; 100; 3])
                (sample_video 8 1 [100; 100; 100; 100]))
    as (m1 & Hrun1 & _ & Hpx1);
    [reflexivity | reflexivity | simpl; lia | simpl; lia | ].
  split.
  - exists m0. split; [exact Hrun0|].
    apply (Hpx0 3%nat 5 9); [simpl; lia | reflexivity | reflexivity].
  - exists m1. split; [exact Hrun1|].
    apply (Hpx1 3%nat 3 100 5 9); [simpl; lia | reflexivity..].
Defined.

(** C2 on sample frames: sequence id 1 arriving at the empty buffer is
    dropped, and after [sample_first] the arrival of [sample_second]
    pops the pair (first, second). *)
Lemma add_frameset_in_order_witness :
  _framesets (process_frame 5 250 working_source (Some (composite sample_second))
                (run 5 250 [])).2
  = _framesets (run 5 250 [])
  ∧ ∀ fs_0 fs_1 this',
      pop_framesets
        (add_frameset (Some sample_second) 1
           (run 5 250 [(working_source, Some (composite sample_first))])).2
        = (Ok (Some (fs_0, fs_1)), this') →
      fs_0 = Some sample_first ∧ fs_1 = Some sample_second.
Proof.
  split.
  - apply (add_frameset_in_order 5 250 [] working_source
             (Some (composite sample_second)) 1); [reflexivity | vm_compute; discriminate].
  - intros fs_0 fs_1 this' Hpop.
    destruct (add_frameset_in_order 5 250
                [(working_source, Some (composite sample_first))]
                working_source (Some (composite sample_second)) 1 eq_refl)
      as (_ & _ & Hpair).
    destruct (Hpair fs_0 fs_1 this' Hpop) as (_ & -> & Hslot & _).
    split; [|reflexivity].
    assert (Hlook : ({[0 := fs_0]} : gmap Z (option frameset)) !! 0
                    = Some (Some sample_first)).
    { rewrite <- Hslot. reflexivity. }
    rewrite lookup_singleton_eq in Hlook. congruence.
Defined.

(** On sample frames with infrared: counters 7 and 8 with equal sizes are
    mergeable, counters 7 and 9 are not. *)
Lemma check_frames_mergeability_iff_witness :
  (∃ u, check_frames_mergeability (Some sample_first) (Some sample_second) false
        = Ok (true, u))
  ∧ check_frames_mergeability (Some sample_first) (Some sample_late) false
    = Ok (false, false).
Proof.
  split.
  - apply (check_frames_mergeability_iff sample_first sample_second
             (sample_video 7 0 [5; 0; 0; 5]) (sample_video 8 1 [7; 7; 0; 9])
             7 8 false); [reflexivity.. | ].
    simpl. lia.
  - apply (check_frames_mergeability_iff sample_first sample_late
             (sample_video 7 0 [5; 0; 0; 5]) (sample_video 9 1 [1; 1; 1; 1])
             7 9 false); [reflexivity.. | ].
    lia.
Defined.

(** The state in which a merge of counters 7 and 8 is cached and
    [sample_first] waits in slot 0 again. *)
Example run_merge_then_first :
  run 5 250 [(working_source, Some (composite sample_first));
             (working_source, Some (composite sample_second));
             (working_source, Some (composite sample_first))]
  = {| _framesets := {[0 := Some sample_first]};
       _depth_merged_frame :=
         Some (plain {| video_info := sample_info 7 0;
                        width := 2; height := 2;
                        pixels := [5; 7; 0; 9] |}) |}.
Proof. by vm_compute. Qed.

(** C6 on sample frames, with the merge of counter 7 cached and
    [sample_first] in slot 0.  The input of counter 6 completes a pair
    that fails validation and makes the cache stale: the cache is
    discarded and the raw input is returned.  The input of counter 9
    completes a pair that fails validation too, but the cache is not
    stale: it is kept and returned. *)
Lemma stale_cache_discarded_witness :
  let merged :=
    plain {| video_info := sample_info 7 0; width := 2; height := 2;
             pixels := [5; 7; 0; 9] |} in
  let this :=
    run 5 250 [(working_source, Some (composite sample_first));
               (working_source, Some (composite sample_second));
               (working_source, Some (composite sample_first))] in
  (_depth_merged_frame
     (process_frame 5 250 working_source (Some (composite sample_early)) this).2 = None
   ∧ (process_frame 5 250 working_source (Some (composite sample_early)) this).1
     = Ok (Some (composite sample_early)))
  ∧ (_depth_merged_frame
       (process_frame 5 250 working_source (Some (composite sample_late)) this).2
     = Some merged
     ∧ (process_frame 5 250 working_source (Some (composite sample_late)) this).1
       = Ok (Some merged)).
Proof.
  intros merged this. split.
  - destruct (stale_cache_discarded 5 250 working_source
                (composite sample_early) merged
                this 1 7 6 (Some sample_first) (Some sample_early)
                {| _framesets := ∅; _depth_merged_frame := _depth_merged_frame this |}
                false)
      as (Hiff & _ & Hout);
      [reflexivity | by vm_compute | reflexivity | by vm_compute
       | reflexivity | reflexivity | ].
    split.
    + apply Hiff. left. lia.
    + apply Hout. left. lia.
  - apply (stale_cache_discarded 5 250 working_source
             (composite sample_late) merged
             this 1 7 9 (Some sample_first) (Some sample_late)
             {| _framesets := ∅; _depth_merged_frame := _depth_merged_frame this |}
             false);
      [reflexivity | by vm_compute | reflexivity | by vm_compute
       | reflexivity | reflexivity | ].
    simpl. lia.
Defined.

(** C9 on sample frames: the first bundle ever received is returned as
    it came, and so is a bundle that completes a pair with a counter
    gap (7, 9) while nothing is cached. *)
Lemma process_frame_passthrough_witness :
  (process_frame 5 250 working_source (Some (composite sample_first)) hdr_merge_new).1
  = Ok (Some (composite sample_first))
  ∧ (process_frame 5 250 working_source (Some (composite sample_late))
       (run 5 250 [(working_source, Some (composite sample_first))])).1
    = Ok (Some (composite sample_late)).
Proof.
  split.
  - apply (process_frame_passthrough 5 250 working_source
             (Some (composite sample_first)) hdr_merge_new 0);
      [reflexivity | reflexivity | ].
    intros fs_0 fs_1 this' Hpop. vm_compute in Hpop. discriminate Hpop.
  - apply (process_frame_passthrough 5 250 working_source
             (Some (composite sample_late))
             (run 5 250 [(working_source, Some (composite sample_first))]) 1);
      [reflexivity | reflexivity | ].
    intros fs_0 fs_1 this' Hpop. vm_compute in Hpop.
    injection Hpop as <- <- _. exists false. reflexivity.
Defined.

(** C4, the claim as stated fails at the over-saturation threshold
    itself: with thresholds 5 and 250, the value 250 satisfies
    5 < 250 ≤ 250 and is not valid. *)
Lemma is_infrared_valid_rejects_upper_threshold :
  (5 < 250 ≤ 250) ∧ is_infrared_valid 5 250 250 = false.
Proof. split; [lia | reflexivity]. Qed.

(** C8, the claim as stated fails on a depth channel that carries the
    sequence size, with value 2, and lacks the sequence id: it carries
    one of the two fields and is rejected all the same. *)
Lemma should_process_rejects_one_missing_field :
  as_frameset (Some (composite sample_without_id)) = Some sample_without_id
  ∧ (∃ depth_frame,
       depth_stream sample_without_id = Some depth_frame
       ∧ subpreset_sequence_size (video_info depth_frame) = Some 2
       ∧ subpreset_sequence_id (video_info depth_frame) = None)
  ∧ should_process (Some (composite sample_without_id)) = false.
Proof. split_and!; [done | by eexists | done]. Qed.

(** C5 at the failing input: [sample_first] is buffered, no merge is
    cached, and [sample_second] arrives while the source cannot
    allocate.  The merge returns the first bundle, and the invocation
    stores that bundle as the cached merge result and returns it. *)
Theorem allocation_failure_updates_cache :
  let this := run 5 250 [(working_source, Some (composite sample_first))] in
  _depth_merged_frame this = None
  ∧ check_frames_mergeability (Some sample_first) (Some sample_second) false
    = Ok (true, true)
  ∧ merging_algorithm 5 250 exhausted_source (Some sample_first) (Some sample_second) true
    = Ok (Some (composite sample_first))
  ∧ process_frame 5 250 exhausted_source (Some (composite sample_second)) this
    = (Ok (Some (composite sample_first)),
       {| _framesets := ∅;
          _depth_merged_frame := Some (composite sample_first) |}).
Proof.
  intros this. split_and!; [done | done | | ].
  - by apply (merging_algorithm_allocation_failure 5 250 _ _ _
                (sample_video 7 0 [5; 0; 0; 5])).
  - apply (process_frame_allocation_failure 5 250 _ _ _ 1 sample_first
             (sample_video 7 0 [5; 0; 0; 5]) (Some sample_second)
             {| _framesets := ∅; _depth_merged_frame := None |} true);
      [done | by vm_compute | done..].
Qed.

(** C7 at the failing input: the sample pair streamed without
    infrared.  The counters are adjacent and the depth sizes agree, but
    the eligibility check does not yield false: its height query on the
    null infrared handle raises, and so do the validator and the
    invocation that completes the pair. *)
Theorem should_ir_be_used_for_merging_raises_without_ir :
  let first := depth_only sample_first in
  let second := depth_only sample_second in
  should_ir_be_used_for_merging
    (depth_stream first) (infrared_stream first)
    (depth_stream second) (infrared_stream second) = Raise null_handle
  ∧ check_frames_mergeability (Some first) (Some second) false = Raise null_handle
  ∧ process_frame 5 250 working_source (Some (composite second))
      (run 5 250 [(working_source, Some (composite first))])
    = (Raise null_handle, hdr_merge_new).
Proof.
  intros first second. split_and!.
  - apply should_ir_be_used_for_merging_without_ir.
  - rewrite (check_frames_mergeability_unfold first second
               (sample_video 7 0 [5; 0; 0; 5]) (sample_video 8 1 [7; 7; 0; 9]) 7 8)
      by done.
    rewrite bool_decide_true by done.
    change (infrared_stream first) with (@None video_frame).
    by rewrite should_ir_be_used_for_merging_without_ir.
  - by vm_compute.
Qed.

(** * The further properties on sample frames *)

(** X1 on sample frames: an infrared counter that is 2^32 ahead of the
    depth counter passes the check. *)
Lemma infrared_eligibility_decided_witness :
  should_ir_be_used_for_merging
    (Some (sample_video 7 0 [5; 0; 0; 5]))
    (Some (sample_video (7 + 2 ^ 32) 0 [100; 100; 100; 3]))
    (Some (sample_video 8 1 [7; 7; 0; 9]))
    (Some (sample_video 8 1 [100; 100; 100; 100]))
  = Ok true.
Proof.
  destruct (infrared_eligibility_decided
              (sample_video 7 0 [5; 0; 0; 5])
              (sample_video (7 + 2 ^ 32) 0 [100; 100; 100; 3])
              (sample_video 8 1 [7; 7; 0; 9])
              (sample_video 8 1 [100; 100; 100; 100])
              7 (7 + 2 ^ 32) 8 8 0 0 1 1)
    as (b & Hrun & Hiff); [reflexivity.. | ].
  rewrite Hrun. f_equal. apply Hiff. simpl. repeat split; reflexivity.
Defined.

(** X3 on sample frames: counters 7 and 9, with and without infrared. *)
Lemma check_frames_mergeability_rejects_before_infrared_witness :
  check_frames_mergeability (Some sample_first) (Some sample_late) true
  = Ok (false, true)
  ∧ check_frames_mergeability
      (Some (depth_only sample_first)) (Some (depth_only sample_late)) true
    = Ok (false, true).
Proof.
  apply (check_frames_mergeability_rejects_before_infrared
           sample_first sample_late
           (sample_video 7 0 [5; 0; 0; 5]) (sample_video 9 1 [1; 1; 1; 1]) 7 9 true);
    [reflexivity.. | ].
  left. lia.
Defined.

(** X5 on the sample pair: pixel 2 is a hole in both sources and in the
    merge; pixel 1 is a hole in the first source only and not in the
    merge. *)
Lemma depth_only_merge_hole_iff_witness :
  ∃ merged,
    merging_algorithm 5 250 working_source (Some sample_first) (Some sample_second) false
      = Ok (Some (plain merged))
    ∧ pixels merged !! 2%nat = Some 0
    ∧ pixels merged !! 1%nat ≠ Some 0.
Proof.
  destruct (depth_only_merge_hole_iff 5 250 working_source sample_first sample_second
              (sample_video 7 0 [5; 0; 0; 5]) (sample_video 8 1 [7; 7; 0; 9]))
    as (merged & Hrun & Hpx);
    [reflexivity | reflexivity | reflexivity | simpl; lia | simpl; lia | ].
  exists merged. split_and!; [exact Hrun | | ].
  - apply (Hpx 2%nat 0 0); [simpl; lia | reflexivity | reflexivity | ]. done.
  - intros Hzero.
    apply (Hpx 1%nat 0 7) in Hzero as [_ Hy]; [lia | simpl; lia | reflexivity..].
Defined.

(** X6 on a sample bundle. *)
Lemma depth_only_merge_idempotent_witness :
  ∃ merged,
    merging_algorithm 5 250 working_source (Some sample_first) (Some sample_first) false
      = Ok (Some (plain merged))
    ∧ pixels merged = [5; 0; 0; 5].
Proof.
  apply (depth_only_merge_idempotent 5 250 working_source sample_first
           (sample_video 7 0 [5; 0; 0; 5]));
    [reflexivity | reflexivity | simpl; lia].
Defined.

(** X7 on the sample pair, at pixel 3, where the first infrared byte is
    outside the band: the gated merge takes the second depth word, the
    depth-only merge the first, and both are nonzero. *)
Lemma infrared_merge_within_depth_only_merge_witness :
  ∃ gated plain_merge,
    merging_algorithm 5 250 working_source (Some sample_first) (Some sample_second) true
      = Ok (Some (plain gated))
    ∧ merging_algorithm 5 250 working_source (Some sample_first) (Some sample_second) false
      = Ok (Some (plain plain_merge))
    ∧ ∃ v w, pixels gated !! 3%nat = Some v
             ∧ pixels plain_merge !! 3%nat = Some w
             ∧ (v ≠ 0 → w ≠ 0).
Proof.
  destruct (infrared_merge_within_depth_only_merge 5 250 working_source
              sample_first sample_second
              (sample_video 7 0 [5; 0; 0; 5]) (sample_video 8 1 [7; 7; 0; 9])
              (sample_video 7 0 [100; 100; 100; 3])
              (sample_video 8 1 [100; 100; 100; 100]))
    as (gated & plain_merge & Hrun1 & Hrun0 & Hpx);
    [reflexivity | reflexivity | reflexivity | reflexivity | reflexivity
     | simpl; lia | simpl; lia | simpl; lia | simpl; lia | ].
  exists gated, plain_merge. split_and!; [exact Hrun1 | exact Hrun0 | ].
  destruct (Hpx 3%nat 3 100 5 9) as (v & w & Hv & Hw & _ & Himp & _);
    [simpl; lia | reflexivity.. | ].
  by exists v, w.
Defined.

(** X9 on sample frames: the first bundle ever received comes back. *)
Lemma process_frame_returns_cache_or_input_witness :
  ∃ out this',
    process_frame 5 250 working_source (Some (composite sample_first)) hdr_merge_new
    = (Ok out, this')
    ∧ is_Some out
    ∧ out = Some (composite sample_first).
Proof.
  assert (Hrun :
    process_frame 5 250 working_source (Some (composite sample_first)) hdr_merge_new
    = (Ok (Some (composite sample_first)),
       {| _framesets := {[0 := Some sample_first]};
          _depth_merged_frame := None |})) by (by vm_compute).
  destruct (process_frame_returns_cache_or_input 5 250 _ _ _ _ _ Hrun)
    as (Hsome & _ & _ & Hinput).
  eexists _, _. split_and!; [exact Hrun | exact Hsome | reflexivity].
Defined.

(** X11 on sample frames: the pair streamed without infrared raises in
    its second call; the cache is the one before and the buffer, which
    held the first bundle, is empty. *)
Lemma process_frame_raise_keeps_cache_witness :
  let this := run 5 250 [(working_source, Some (composite (depth_only sample_first)))] in
  _depth_merged_frame hdr_merge_new = _depth_merged_frame this
  ∧ (hdr_merge_new = this
     ∨ (_framesets hdr_merge_new = ∅ ∧ _framesets this ≠ ∅)).
Proof.
  intros this.
  apply (process_frame_raise_keeps_cache 5 250 working_source
           (Some (composite (depth_only sample_second))) this
           null_handle hdr_merge_new).
  by vm_compute.
Defined.

(** X12 on sample frames: an admitted bundle on the new block. *)
Lemma admitted_frame_raises_only_after_pop_witness :
  ∃ out this',
    process_frame 5 250 working_source (Some (composite sample_first)) hdr_merge_new
    = (Ok out, this').
Proof.
  apply (admitted_frame_raises_only_after_pop 5 250 working_source
           (Some (composite sample_first)) hdr_merge_new);
    reflexivity.
Defined.

(** X13 on the sample pair, from the new block. *)
Lemma pair_merged_in_two_calls_witness :
  let merged :=
    plain {| video_info := sample_info 7 0; width := 2; height := 2;
             pixels := [5; 7; 0; 9] |} in
  process_frame 5 250 working_source (Some (composite sample_second))
    (process_frame 5 250 working_source (Some (composite sample_first))
       hdr_merge_new).2
  = (Ok (Some merged), {| _framesets := ∅; _depth_merged_frame := Some merged |}).
Proof.
  intros merged.
  apply (pair_merged_in_two_calls 5 250 working_source working_source
           sample_first sample_second
           (sample_video 7 0 [5; 0; 0; 5]) (sample_video 8 1 [7; 7; 0; 9])
           hdr_merge_new true merged);
    reflexivity.
Defined.

(** X14 on sample frames: sequence id 0 on the new block. *)
Lemma process_frame_between_pairs_witness :
  (process_frame 5 250 working_source (Some (composite sample_first))
     (run 5 250 [])).1
  = Ok (Some (composite sample_first))
  ∧ _framesets
      (process_frame 5 250 working_source (Some (composite sample_first))
         (run 5 250 [])).2
    = {[0 := Some sample_first]}.
Proof.
  destruct (process_frame_between_pairs 5 250 [] working_source
              (Some (composite sample_first)) 0)
    as (Hout & _ & Hins & _); [reflexivity | by right | ].
  split; [exact Hout | by apply Hins].
Defined.

(** X15 on sample frames: no memory, and no second bundle either. *)
Lemma merging_algorithm_failure_modes_witness :
  merging_algorithm 5 250 exhausted_source (Some sample_first) None true
  = Ok (Some (composite sample_first)).
Proof.
  destruct (merging_algorithm_failure_modes 5 250 exhausted_source sample_first
              (sample_video 7 0 [5; 0; 0; 5]))
    as (_ & Hfail & _); [reflexivity|].
  by apply Hfail.
Defined.

(** C3 at the failing input: the sample pair streamed without
    infrared.  The second depth counter is the first plus one and the
    two depth channels have the same width and height, so the claim
    has the validator report mergeable; but the validator does not
    report anything: the eligibility check it runs once counters and
    sizes have passed queries the null infrared handle, and the raise
    comes out of the validator.  The same happens when only the second
    bundle lacks infrared.  With counters 7 and 9 the same bundles are
    reported not-mergeable, the infrared check not being reached. *)
Theorem check_frames_mergeability_raises_on_depth_only_pair :
  let first := depth_only sample_first in
  let second := depth_only sample_second in
  (∃ d0 d1 c0 c1,
     depth_stream first = Some d0 ∧ depth_stream second = Some d1
     ∧ frame_counter (video_info d0) = Some c0
     ∧ frame_counter (video_info d1) = Some c1
     ∧ c1 = c0 + 1 ∧ width d0 = width d1 ∧ height d0 = height d1)
  ∧ check_frames_mergeability (Some first) (Some second) false = Raise null_handle
  ∧ check_frames_mergeability (Some sample_first) (Some second) false
    = Raise null_handle
  ∧ check_frames_mergeability (Some first) (Some (depth_only sample_late)) false
    = Ok (false, false).
Proof.
  intros first second. split_and!.
  - exists (sample_video 7 0 [5; 0; 0; 5]), (sample_video 8 1 [7; 7; 0; 9]), 7, 8.
    by split_and!.
  - rewrite (check_frames_mergeability_unfold first second
               (sample_video 7 0 [5; 0; 0; 5]) (sample_video 8 1 [7; 7; 0; 9]) 7 8)
      by done.
    by rewrite bool_decide_true.
  - rewrite (check_frames_mergeability_unfold sample_first second
               (sample_video 7 0 [5; 0; 0; 5]) (sample_video 8 1 [7; 7; 0; 9]) 7 8)
      by done.
    by rewrite bool_decide_true.
  - rewrite (check_frames_mergeability_unfold first (depth_only sample_late)
               (sample_video 7 0 [5; 0; 0; 5]) (sample_video 9 1 [1; 1; 1; 1]) 7 9)
      by done.
    by rewrite bool_decide_false by (intros (? & _); lia).
Qed.

(** X17 on the sample pair with infrared: mergeable, with infrared in
    use. *)
Lemma check_frames_mergeability_with_infrared_witness :
  check_frames_mergeability (Some sample_first) (Some sample_second) false
  = Ok (true, true).
Proof.
  destruct (check_frames_mergeability_with_infrared sample_first sample_second
              (sample_video 7 0 [5; 0; 0; 5]) (sample_video 8 1 [7; 7; 0; 9])
              (sample_video 7 0 [100; 100; 100; 3])
              (sample_video 8 1 [100; 100; 100; 100])
              7 7 8 8 0 0 1 1 false)
    as (mergeable & u & Hrun & Hiff & _ & Hu); [reflexivity.. | ].
  assert (Hm : mergeable = true) by (apply Hiff; simpl; lia).
  subst mergeable. specialize (Hu eq_refl). vm_compute in Hu.
  injection Hu as <-. exact Hrun.
Defined.
